(** * The GCS transfer agent for Git LFS ([local_lfs_to_gcs.py])

    A shallow embedding of the agent: the read loop over standard input,
    the event dispatcher, the two-tier download, the upload and the
    token fetch, as functions in a state-and-exception monad over the
    process state (standard output, standard error, the local files and
    the log of calls to the outside world). *)

From Stdlib Require Import ZArith List Strings.String Strings.Ascii Strings.Byte Lia.
From Stdlib Require Import Floats.PrimFloat.
From stdpp Require Import base strings list gmap pretty.

Set Warnings "-register-all".

Local Open Scope Z_scope.

(** ** Python values *)

(** The characters Rocq's string notation cannot spell. *)
Definition nl : string := String (ascii_of_nat 10) EmptyString.
Definition dq : string := String (ascii_of_nat 34) EmptyString.

(** What [json.loads] returns: [None], [bool], [int], [float], [str],
    [list] and [dict]. A [dict] keeps its keys in insertion order and, as
    a Python dict, holds a key once. A [str] is a sequence of code points;
    a Rocq character stands for one code point. *)
Inductive json : Type :=
| JNull
| JBool (b : bool)
| JInt (n : Z)
| JFloat (f : float)
| JStr (s : string)
| JList (l : list json)
| JDict (d : list (string * json)).

(** The exceptions the agent can meet. [Unmodelled] is not one of
    Python's: it marks a run that leaves what this development describes,
    at the open of a file descriptor (see [open_wb]). *)
Inductive exn : Type :=
| RuntimeError (msg : string)
| JSONDecodeError (msg : string)
| UnicodeDecodeError
| AttributeError
| TypeError
| ValueError
| OSError
| RequestException (msg : string)
| Unmodelled.

(** A call either returns or raises. *)
Inductive outcome (A : Type) : Type :=
| Ret (a : A)
| Raise (e : exn).
Arguments Ret {A} a.
Arguments Raise {A} e.

(** ** The libraries the agent calls *)

(** [json.loads] on the bytes of a line and on a response's text,
    [json.dumps] on a response object, and [repr] for the values an
    f-string prints that are not handled in [py_str] below.
    [json.loads] raises [JSONDecodeError] on text that is not JSON and
    [UnicodeDecodeError] on bytes that are not UTF-8. *)
Class PyLib : Type := {
  json_loads : list byte -> outcome json;
  json_dumps : json -> string;
  py_repr : json -> string
}.

(** What [response.json()] gives: the decoded body, or the
    [JSONDecodeError] of [requests], which is a subclass of the one of
    [json] and is caught as such. *)
Inductive decoded : Type :=
| Decoded (v : json)
| Undecodable (msg : string).

(** A [requests.Response]: the status, the body bytes, the body decoded
    as text, and the body decoded as JSON. *)
Record response : Type := {
  status_code : Z;
  content : list byte;
  text : string;
  body_json : decoded
}.

(** A [subprocess.CompletedProcess] run with [text=True]. *)
Record completed_process : Type := {
  returncode : Z;
  proc_stdout : string;
  proc_stderr : string
}.

(** The calls that leave the process. *)
Inductive call : Type :=
| Getenv (name : string)
| RequestsGet (url : string) (headers : list (string * string))
| RequestsPost (url : string) (headers : list (string * string)) (data : list byte)
| SubprocessRun (args : list string).

(** The outside world: the environment, the object store, the credential
    tool and which paths can be opened for writing. The store and the
    tool answer from the calls made so far, so that two equal requests
    may be answered differently. *)
Record world : Type := {
  environ : string -> option string;
  http_get : list call -> string -> list (string * string) -> outcome response;
  http_post : list call -> string -> list (string * string) -> list byte -> outcome response;
  run_process : list call -> list string -> outcome completed_process;
  can_write : string -> bool
}.

(** ** The process state *)

(** [stdout] and [stderr] hold the texts written, one entry per
    [write]; [files] maps a path to the bytes of the file; [calls] is the
    log of outside calls, oldest first; [lines_read] counts the lines the
    loop has taken from standard input. *)
Record state : Type := {
  stdout : list string;
  stderr : list string;
  files : gmap string (list byte);
  calls : list call;
  lines_read : nat
}.

Definition initial_state (fs : gmap string (list byte)) : state :=
  {| stdout := []; stderr := []; files := fs; calls := []; lines_read := 0 |}.

Definition M (A : Type) : Type := state -> outcome A * state.

Definition ret {A} (a : A) : M A := fun st => (Ret a, st).

Definition raise {A} (e : exn) : M A := fun st => (Raise e, st).

Definition bind {A B} (m : M A) (k : A -> M B) : M B :=
  fun st =>
    match m st with
    | (Ret a, st') => k a st'
    | (Raise e, st') => (Raise e, st')
    end.

Definition lift {A} (o : outcome A) : M A := fun st => (o, st).

(** The agent's code is written with stdpp's monad notation:
    [x ← m; k] and [m;; k]. *)
#[global] Instance M_ret : MRet M := @ret.
#[global] Instance M_bind : MBind M := fun A B k m => bind m k.

(** The changes of the state. *)
Definition add_stdout (s : string) (st : state) : state :=
  {| stdout := stdout st ++ [s]; stderr := stderr st; files := files st;
     calls := calls st; lines_read := lines_read st |}.

Definition add_stderr (s : string) (st : state) : state :=
  {| stdout := stdout st; stderr := stderr st ++ [s]; files := files st;
     calls := calls st; lines_read := lines_read st |}.

Definition add_call (c : call) (st : state) : state :=
  {| stdout := stdout st; stderr := stderr st; files := files st;
     calls := calls st ++ [c]; lines_read := lines_read st |}.

Definition put_file (p : string) (b : list byte) (st : state) : state :=
  {| stdout := stdout st; stderr := stderr st; files := <[p := b]> (files st);
     calls := calls st; lines_read := lines_read st |}.

Definition count_line (st : state) : state :=
  {| stdout := stdout st; stderr := stderr st; files := files st;
     calls := calls st; lines_read := S (lines_read st) |}.

(** [sys.stdout.write] and [sys.stderr.write]; [flush] changes nothing
    here, every write is in the stream at once. *)
Definition stdout_write (s : string) : M unit :=
  fun st => (Ret tt, add_stdout s st).

Definition stderr_write (s : string) : M unit :=
  fun st => (Ret tt, add_stderr s st).

Definition log_call (c : call) : M unit :=
  fun st => (Ret tt, add_call c st).

(** [open(p, "wb")] leaves the file empty; [file_data.write(b)] adds
    [b] at its end. *)
Definition set_file (p : string) (b : list byte) : M unit :=
  fun st => (Ret tt, put_file p b st).

Definition append_file (p : string) (b : list byte) : M unit :=
  fun st => (Ret tt, put_file p (default [] (files st !! p) ++ b) st).

Definition take_line : M unit :=
  fun st => (Ret tt, count_line st).

(** ** Strings, bytes and paths *)

(** [bytes.strip()]: the ASCII whitespace bytes are space, tab, newline,
    vertical tab, form feed and carriage return. *)
Definition bytes_isspace (b : byte) : bool :=
  let n := Byte.to_nat b in
  ((9 <=? n)%nat && (n <=? 13)%nat) || (n =? 32)%nat.

Fixpoint bytes_lstrip (l : list byte) : list byte :=
  match l with
  | [] => []
  | b :: l' => if bytes_isspace b then bytes_lstrip l' else l
  end.

Definition bytes_strip (l : list byte) : list byte :=
  rev (bytes_lstrip (rev (bytes_lstrip l))).

(** [str.strip()]: on top of the ASCII whitespace, [str.isspace] holds of
    the separators 28 to 31 and of the code points 133 and 160. *)
Definition str_isspace (c : ascii) : bool :=
  let n := nat_of_ascii c in
  ((9 <=? n)%nat && (n <=? 13)%nat) || ((28 <=? n)%nat && (n <=? 32)%nat)
  || (n =? 133)%nat || (n =? 160)%nat.

Fixpoint str_lstrip (s : string) : string :=
  match s with
  | EmptyString => EmptyString
  | String c s' => if str_isspace c then str_lstrip s' else s
  end.

Definition str_strip (s : string) : string :=
  String.rev (str_lstrip (String.rev (str_lstrip s))).

Fixpoint endswith_sep (s : string) : bool :=
  match s with
  | EmptyString => false
  | String c EmptyString => Ascii.eqb c "/"
  | String _ s' => endswith_sep s'
  end.

Definition startswith_sep (s : string) : bool :=
  match s with
  | String c _ => Ascii.eqb c "/"
  | EmptyString => false
  end.

(** One round of the loop of [posixpath.join]: a component that starts
    with the separator replaces the path so far. *)
Definition join_step (path b : string) : string :=
  if startswith_sep b then b
  else if (String.length path =? 0)%nat || endswith_sep path then path +:+ b
  else path +:+ "/" +:+ b.

Definition path_join (a : string) (p : list string) : string :=
  fold_left join_step p a.

(** [str(v)], which [str.format] and an f-string apply to a value. *)
Definition py_str `{PyLib} (v : json) : string :=
  match v with
  | JStr s => s
  | JNull => "None"
  | JBool true => "True"
  | JBool false => "False"
  | JInt n => pretty n
  | _ => py_repr v
  end.

Definition str_opt (o : option string) : string :=
  match o with
  | Some s => s
  | None => "None"
  end.

(** [payload.get(k)] on a dict; a missing key gives [None]. *)
Fixpoint dict_get (d : list (string * json)) (k : string) : json :=
  match d with
  | [] => JNull
  | (k', v) :: d' => if String.eqb k' k then v else dict_get d' k
  end.

(** Only a dict has [get]. *)
Definition payload_get (payload : json) (k : string) : outcome json :=
  match payload with
  | JDict d => Ret (dict_get d k)
  | _ => Raise AttributeError
  end.

(** [event == "init"]: a value that is not a [str] is not equal to one. *)
Definition eq_str (v : json) (s : string) : bool :=
  match v with
  | JStr t => String.eqb t s
  | _ => false
  end.

(** The body of [get_temporary_path] on a [str]. *)
Definition temporary_path (oid : string) : string :=
  let base_dir := ".git/lfs/objects" in
  let subdir := path_join (substring 0 2 oid) [substring 2 2 oid] in
  path_join base_dir [subdir; oid].

(** [get_temporary_path]: slicing and joining need a [str]; [None], a
    number, a list or a dict raises (a [TypeError], but for a dict on
    Python 3.12 and later, where it is a [KeyError]). *)
Definition get_temporary_path (oid : json) : outcome string :=
  match oid with
  | JStr s => Ret (temporary_path s)
  | _ => Raise TypeError
  end.

(** [response.iter_content(chunk_size=n)]: the body cut in pieces of [n]
    bytes, the last one shorter. *)
Fixpoint iter_content_go (fuel : nat) (n : nat) (body : list byte) : list (list byte) :=
  match fuel with
  | O => []
  | S fuel' =>
      match body with
      | [] => []
      | _ => take n body :: iter_content_go fuel' n (drop n body)
      end
  end.

Definition iter_content (n : nat) (body : list byte) : list (list byte) :=
  iter_content_go (length body) n body.

(** A path that holds the NUL character names no file: [open] and
    [os.stat] raise [ValueError] on it. *)
Fixpoint has_nul (s : string) : bool :=
  match s with
  | EmptyString => false
  | String c s' => Ascii.eqb c Ascii.zero || has_nul s'
  end.

(** An [int] or a [bool] given to [open] or to [os.path.getsize] is a
    file descriptor of the process, not the name of a file. *)
Definition descriptor (path : json) : bool :=
  match path with
  | JInt _ | JBool _ => true
  | _ => false
  end.

(** The bytes of a line before its newline, and the limit of
    [asyncio.StreamReader]: a line is yielded when its newline (or, for
    the last line, the end of the input) comes after at most 65536
    bytes. *)
Fixpoint before_newline (line : list byte) : list byte :=
  match line with
  | [] => []
  | b :: l => if Byte.eqb b x0a then [] else b :: before_newline l
  end.

Definition stream_limit : Z := 65536.

Definition within_limit (line : list byte) : bool :=
  Z.of_nat (length (before_newline line)) <=? stream_limit.

(** How a round of the read loop ends. *)
Inductive flow : Type :=
| Continue
| Break.

(** The size of a chunk of [_write_to_file]. *)
Definition chunk_size : nat := Z.to_nat 8192.

(** ** The agent *)

Section Agent.
Context `{lib : PyLib} (w : world).

(** The calls to the outside are logged, and answered from the log as it
    was before the call. *)
Definition os_getenv (name : string) : M (option string) :=
  log_call (Getenv name);; mret (environ w name).

Definition requests_get (url : string) (headers : list (string * string)) : M response :=
  fun st => (log_call (RequestsGet url headers);;
             lift (http_get w (calls st) url headers)) st.

Definition requests_post (url : string) (headers : list (string * string))
    (data : list byte) : M response :=
  fun st => (log_call (RequestsPost url headers data);;
             lift (http_post w (calls st) url headers data)) st.

Definition subprocess_run (args : list string) : M completed_process :=
  fun st => (log_call (SubprocessRun args);;
             lift (run_process w (calls st) args)) st.

(** The error of a [str] path that cannot be opened or that names no
    file: [ValueError] when it holds the NUL character, [OSError]
    otherwise. *)
Definition path_error (p : string) : exn :=
  if has_nul p then ValueError else OSError.

(** [open(path, "wb")]: a [str] that can be opened for writing names a
    file, which is emptied; one that cannot raises. A [float], a [list],
    a [dict] or [None] raises [TypeError]. An [int] or a [bool] is a file
    descriptor: the process would write to it (descriptor 1 is standard
    output) and close it, which depends on the descriptors of the
    process and is not described here; the run is marked [Unmodelled],
    and the properties that depend on the open are stated for paths that
    are no descriptors. *)
Definition open_wb (path : json) : M string :=
  match path with
  | JStr p => if can_write w p then set_file p [];; mret p else raise (path_error p)
  | JInt _ | JBool _ => raise Unmodelled
  | _ => raise TypeError
  end.

(** [open(path, "rb")] and the read of the whole file; a descriptor is
    outside the model as for [open_wb] (descriptor 0 is standard
    input). *)
Definition open_rb (path : json) : M (list byte) :=
  match path with
  | JStr p => fun st =>
      match files st !! p with
      | Some b => (Ret b, st)
      | None => (Raise (path_error p), st)
      end
  | JInt _ | JBool _ => raise Unmodelled
  | _ => raise TypeError
  end.

(** [os.path.getsize(path)]; on a descriptor it is the size [os.stat]
    gives of it, outside the model as well. *)
Definition getsize (path : json) : M Z :=
  match path with
  | JStr p => fun st =>
      match files st !! p with
      | Some b => (Ret (Z.of_nat (length b)), st)
      | None => (Raise (path_error p), st)
      end
  | JInt _ | JBool _ => raise Unmodelled
  | _ => raise TypeError
  end.

Definition public_url (bucket : option string) (object_name : json) : string :=
  "https://storage.googleapis.com/" +:+ str_opt bucket
  +:+ "/PIFSC%2FSOD%2Fgit_lfs_test%2F" +:+ py_str object_name.

Definition private_url (bucket : option string) (object_name : json) : string :=
  "https://storage.googleapis.com/storage/v1/b/" +:+ str_opt bucket
  +:+ "/o/PIFSC%2FSOD%2Fgit_lfs_test%2F" +:+ py_str object_name +:+ "?alt=media".

Definition upload_url (bucket : option string) (object_name : json) : string :=
  "https://storage.googleapis.com/upload/storage/v1/b/" +:+ str_opt bucket
  +:+ "/o?uploadType=media&name=PIFSC%2FSOD%2Fgit_lfs_test%2F" +:+ py_str object_name.

(** The loop of [_write_to_file]: an empty chunk is skipped. *)
Fixpoint write_chunks (p : string) (chunks : list (list byte)) : M unit :=
  match chunks with
  | [] => mret tt
  | chunk :: rest =>
      (if (length chunk =? 0)%nat then mret tt else append_file p chunk);;
      write_chunks p rest
  end.

Definition _write_to_file (r : response) (destination_path : json) : M unit :=
  p ← open_wb destination_path;
  write_chunks p (iter_content chunk_size (content r)).

Definition get_access_token : M string :=
  result ← subprocess_run ["gcloud"; "auth"; "print-access-token"];
  if returncode result =? 0 then mret (str_strip (proc_stdout result))
  else raise (RuntimeError ("Error fetching access token: " +:+ proc_stderr result)).

Definition complete_download (object_name destination_path : json) : json :=
  JDict [("event", JStr "complete"); ("oid", object_name); ("path", destination_path)].

Definition download_error (r : response) : exn :=
  RuntimeError ("Error downloading file: " +:+ pretty (status_code r) +:+ " " +:+ text r).

(** [download]: the two returns of the source are the two branches that
    end in a write to standard output; every other path reaches the
    [raise] of the last line with the latest response. *)
Definition download (bucket : option string) (object_name destination_path : json) : M unit :=
  r ← requests_get (public_url bucket object_name) [];
  temp_path ← lift (get_temporary_path object_name);
  if status_code r =? 200 then
    _write_to_file r (JStr temp_path);;
    stdout_write (json_dumps (complete_download object_name destination_path) +:+ nl)
  else if status_code r =? 403 then
    token ← get_access_token;
    r' ← requests_get (private_url bucket object_name)
           [("Authorization", "Bearer " +:+ token)];
    if status_code r' =? 200 then
      _write_to_file r' destination_path;;
      stdout_write (json_dumps (complete_download object_name destination_path) +:+ nl)
    else raise (download_error r')
  else raise (download_error r).

Definition handle_download (payload : json) : M unit :=
  oid ← lift (payload_get payload "oid");
  path ← lift (payload_get payload "path");
  bucket ← os_getenv "GCS_BUCKET";
  stderr_write ("Handling download for OID: " +:+ py_str oid
                +:+ ", Path: " +:+ py_str path +:+ nl);;
  download bucket oid path.

Definition handle_init (payload : json) : M unit :=
  stderr_write ("Handling init: " +:+ py_str payload +:+ nl);;
  stdout_write (json_dumps (JDict [("event", JStr "init")]) +:+ nl);;
  stderr_write ("Init event processed and response flushed" +:+ nl).

(** [handle_terminate]: the [sys.exit(0)] of the source is commented
    out, the handler returns. *)
Definition handle_terminate (payload : json) : M unit :=
  stderr_write ("Handling terminate event" +:+ nl);;
  stdout_write (json_dumps (JDict [("event", JStr "terminate")]) +:+ nl);;
  stderr_write ("Terminate event processed" +:+ nl).

Definition response_str (r : response) : string :=
  "<Response [" +:+ pretty (status_code r) +:+ "]>".

Definition response_json (r : response) : M json :=
  match body_json r with
  | Decoded v => mret v
  | Undecodable msg => raise (JSONDecodeError msg)
  end.

Definition complete_upload (object_name : json) (size : Z) : json :=
  JDict [("event", JStr "complete"); ("oid", object_name); ("size", JInt size)].

Definition upload_error (r : response) : exn :=
  RuntimeError ("Error uploading file: " +:+ pretty (status_code r) +:+ " " +:+ text r).

Definition upload (bucket : option string) (object_name file_path : json) : M unit :=
  stderr_write "uploading file";;
  token ← get_access_token;
  let headers := [("Content-Type", "application/octet-stream");
                  ("Authorization", "Bearer " +:+ token)] in
  file_data ← open_rb file_path;
  r ← requests_post (upload_url bucket object_name) headers file_data;
  stderr_write ("response received: " +:+ response_str r);;
  (if status_code r =? 200 then
     stderr_write "completing upload event";;
     body ← response_json r;
     stderr_write (py_str body);;
     size ← getsize file_path;
     stdout_write (json_dumps (complete_upload object_name size) +:+ nl)
   else raise (upload_error r));;
  stderr_write "upload event concluded".

Definition handle_upload (payload : json) : M unit :=
  oid ← lift (payload_get payload "oid");
  path ← lift (payload_get payload "path");
  bucket ← os_getenv "GCS_BUCKET";
  stderr_write ("Handling upload for OID: " +:+ py_str oid
                +:+ ", Path: " +:+ py_str path +:+ nl);;
  upload bucket oid path.

Definition process_event (payload : json) : M unit :=
  event ← lift (payload_get payload "event");
  stderr_write ("Processing event: " +:+ py_str event +:+ nl);;
  if eq_str event "init" then handle_init payload
  else if eq_str event "upload" then handle_upload payload
  else if eq_str event "download" then handle_download payload
  else if eq_str event "terminate" then handle_terminate payload
  else stderr_write ("Unsupported event: " +:+ py_str event +:+ nl).

(** The body of the [try] of the read loop. *)
Definition try_line (line : list byte) : M unit :=
  payload ← lift (json_loads (bytes_strip line));
  process_event payload.

(** One round of the [async for] of [handle_request]: a blank line is
    skipped with [continue]; a [JSONDecodeError] from the body of the
    [try] is logged and ends the loop with [break]; any other exception
    leaves the loop unhandled. *)
Definition iteration (line : list byte) : M flow :=
  take_line;;
  if (length (bytes_strip line) =? 0)%nat then mret Continue
  else fun st =>
    match try_line line st with
    | (Ret _, st') => (Ret Continue, st')
    | (Raise (JSONDecodeError msg), st') =>
        (stderr_write ("Error decoding JSON: " +:+ msg +:+ nl);; mret Break) st'
    | (Raise e, st') => (Raise e, st')
    end.

(** The loop over the lines the stream reader yields, each within its
    limit, to the end of the input or to the first [break]. *)
Fixpoint read_loop (lines : list (list byte)) : M unit :=
  match lines with
  | [] => mret tt
  | line :: rest =>
      f ← iteration line;
      match f with
      | Continue => read_loop rest
      | Break => mret tt
      end
  end.

(** [async for line in reader] on the lines of standard input: the
    reader of line 144 yields a line that is within its limit, and raises
    [ValueError] at a longer one, out of the loop and of the handler. On
    lines within the limit it is [read_loop]. *)
Fixpoint async_for (lines : list (list byte)) : M unit :=
  match lines with
  | [] => mret tt
  | line :: rest =>
      if within_limit line then
        f ← iteration line;
        match f with
        | Continue => async_for rest
        | Break => mret tt
        end
      else raise ValueError
  end.

Definition handle_request (lines : list (list byte)) : M unit :=
  stderr_write ("Transfer agent started" +:+ nl);;
  async_for lines.

(** [sys.stderr("finished\n")]: the stream object is not callable. *)
Definition sys_stderr_call (s : string) : M unit := raise TypeError.

(** The script under [if __name__ == "__main__"]. *)
Definition main_body (lines : list (list byte)) : M unit :=
  stderr_write ("Transferring" +:+ nl);;
  handle_request lines;;
  sys_stderr_call ("finished" +:+ nl).

(** The exit status of the interpreter: 0 when the script runs to its
    end, 1 when an exception leaves it (the traceback the interpreter then
    prints on standard error is left out of [stderr]). *)
Definition exit_status {A} (o : outcome A) : Z :=
  match o with
  | Ret _ => 0
  | Raise _ => 1
  end.

Definition main (fs : gmap string (list byte)) (lines : list (list byte)) : Z * state :=
  let '(o, st) := main_body lines (initial_state fs) in
  (exit_status o, st).

End Agent.

(** ** A library and worlds for the examples *)

Module Sample.

(** [json.dumps] with its default separators, exact on the values of the
    examples: objects and lists of strings that need no escape, of
    integers, booleans and [null]. *)
Fixpoint dumps (v : json) : string :=
  match v with
  | JNull => "null"
  | JBool b => if b then "true" else "false"
  | JInt n => pretty n
  | JFloat _ => "NaN"
  | JStr s => dq +:+ s +:+ dq
  | JList l =>
      "[" +:+ (fix items (l : list json) : string :=
                 match l with
                 | [] => ""
                 | x :: l' =>
                     dumps x +:+ match l' with [] => "" | _ => ", " end +:+ items l'
                 end) l +:+ "]"
  | JDict d =>
      "{" +:+ (fix members (d : list (string * json)) : string :=
                 match d with
                 | [] => ""
                 | (k, x) :: d' =>
                     dq +:+ k +:+ dq +:+ ": " +:+ dumps x
                     +:+ match d' with [] => "" | _ => ", " end +:+ members d'
                 end) d +:+ "}"
  end.

Definition init_event : json := JDict [("event", JStr "init")].
Definition terminate_event : json := JDict [("event", JStr "terminate")].
Definition download_event : json :=
  JDict [("event", JStr "download"); ("oid", JStr "ab12cd"); ("path", JStr "/tmp/out")].
Definition upload_event : json :=
  JDict [("event", JStr "upload"); ("oid", JStr "x"); ("path", JStr "/tmp/f")].
Definition progress_event : json := JDict [("event", JStr "progress")].

Definition events : list json :=
  [init_event; terminate_event; download_event; upload_event; progress_event].

Definition decode_error : string := "Expecting value: line 1 column 1 (char 0)".

(** [json.loads] on the lines of the examples: the text of one of
    [events] decodes to it, and every other line of the examples (the
    empty one, a newline, a word) is not JSON. *)
Definition loads (b : list byte) : outcome json :=
  match find (fun v => String.eqb (dumps v) (string_of_list_byte b)) events with
  | Some v => Ret v
  | None => Raise (JSONDecodeError decode_error)
  end.

(** [repr] is given the JSON text: the examples do not compare what an
    f-string prints of a list or a dict. *)
#[export] Instance lib : PyLib :=
  {| json_loads := loads; json_dumps := dumps; py_repr := dumps |}.

(** The line of standard input that carries a value. *)
Definition line_of (v : json) : list byte :=
  list_byte_of_string (dumps v +:+ nl).

Definition reply (status : Z) (body : string) (j : decoded) : response :=
  {| status_code := status; content := list_byte_of_string body;
     text := body; body_json := j |}.

Definition tool (code : Z) (out err : string) : completed_process :=
  {| returncode := code; proc_stdout := out; proc_stderr := err |}.

(** A world where the bucket is set, every path can be written, the
    public GET (no header) is answered by [public], the authenticated GET
    by [private], the POST by [posted] and the credential tool by [t]. *)
Definition scripted (public private posted : response) (t : completed_process) : world :=
  {| environ := fun name => if String.eqb name "GCS_BUCKET" then Some "bucket" else None;
     http_get := fun _ _ headers =>
       match headers with
       | [] => Ret public
       | _ => Ret private
       end;
     http_post := fun _ _ _ _ => Ret posted;
     run_process := fun _ _ => Ret t;
     can_write := fun _ => true |}.

Definition forbidden : response := reply 403 "denied" (Undecodable decode_error).
Definition hello : response := reply 200 "hello" (Undecodable decode_error).
Definition world_ : response := reply 200 "world" (Undecodable decode_error).
Definition stored : response := reply 200 "{}" (Decoded (JDict [])).
Definition plain_ok : response := reply 200 "OK" (Undecodable decode_error).
Definition token_ok : completed_process := tool 0 ("ya29.token" +:+ nl) "".
Definition token_failed : completed_process := tool 1 "" "not logged in".

(** The worlds of the examples: every answer is a success; the public
    tier is closed; the public tier is closed and the credential tool
    fails; the store answers an upload with a body that is not JSON. *)
Definition quiet : world := scripted hello world_ stored token_ok.
Definition private_bucket : world := scripted forbidden world_ stored token_ok.
Definition logged_out : world := scripted forbidden world_ stored token_failed.
Definition plain_store : world := scripted hello world_ plain_ok token_ok.

(** The process before its first write, with no file and with the file
    of the upload example. *)
Definition start : state := initial_state ∅.
Definition with_file : state :=
  initial_state {[ "/tmp/f" := list_byte_of_string "0123456789" ]}.

(** A text between double quotes, as [json.dumps] writes a string. *)
Definition quoted (s : string) : string := dq +:+ s +:+ dq.

(** A world like [scripted] where no path can be opened for writing. *)
Definition read_only (public private posted : response) (t : completed_process) : world :=
  {| environ := environ (scripted public private posted t);
     http_get := http_get (scripted public private posted t);
     http_post := http_post (scripted public private posted t);
     run_process := run_process (scripted public private posted t);
     can_write := fun _ => false |}.

(** A download event with no [oid], and one with no [path]. *)
Definition download_no_oid : json :=
  JDict [("event", JStr "download"); ("path", JStr "/tmp/out")].
Definition download_no_path : json :=
  JDict [("event", JStr "download"); ("oid", JStr "ab12cd")].

(** A store that refuses the upload. *)
Definition refused : response := reply 500 "boom" (Undecodable decode_error).
Definition store_down : world := scripted hello world_ refused token_ok.

(** The public tier is closed and the authenticated one fails, and the
    public tier is closed where nothing can be written. *)
Definition private_down : world := scripted forbidden refused stored token_ok.
Definition private_read_only : world := read_only forbidden world_ stored token_ok.


(** A second library, whose [json.loads] also decodes the text of the
    empty list and of a number. *)
Definition values : list json := events ++ [JList []; JInt 42].

Definition loads_values (b : list byte) : outcome json :=
  match find (fun v => String.eqb (dumps v) (string_of_list_byte b)) values with
  | Some v => Ret v
  | None => Raise (JSONDecodeError decode_error)
  end.

Definition lib_values : PyLib :=
  {| json_loads := loads_values; json_dumps := dumps; py_repr := dumps |}.

End Sample.

(** ** The vocabulary of the properties *)

Ltac monad_unfold :=
  unfold mbind, M_bind, bind, mret, M_ret, ret, raise, lift in *.

(** A line is blank when [bytes.strip] leaves nothing of it: it is empty
    or made of ASCII whitespace only. *)
Definition blank (line : list byte) : Prop :=
  Forall (fun b => bytes_isspace b = true) line.

(** The event names the dispatcher knows. *)
Definition recognised (event : json) : bool :=
  eq_str event "init" || eq_str event "upload"
  || eq_str event "download" || eq_str event "terminate".

(** A GET that carries an [Authorization] header. *)
Definition authenticated_get (c : call) : bool :=
  match c with
  | RequestsGet _ headers => existsb (fun h => String.eqb (fst h) "Authorization") headers
  | _ => false
  end.

(** A read of the environment. *)
Definition is_getenv (c : call) : bool :=
  match c with
  | Getenv _ => true
  | _ => false
  end.

Definition env_reads (st : state) : nat := length (List.filter is_getenv (calls st)).

(** An upload or a download. *)
Definition transfer (event : json) : bool :=
  eq_str event "upload" || eq_str event "download".

(** A computation that, however it ends, adds to the log only calls that
    satisfy [P]. *)
Definition only_calls {A} (P : call -> Prop) (m : M A) : Prop :=
  forall st o st', m st = (o, st') ->
    exists l, calls st' = calls st ++ l /\ Forall P l.

Definition upload_headers (t : completed_process) : list (string * string) :=
  [("Content-Type", "application/octet-stream");
   ("Authorization", "Bearer " +:+ str_strip (proc_stdout t))].

Definition upload_post `{PyLib} (bucket : option string) (oid : json)
    (t : completed_process) (data : list byte) : call :=
  RequestsPost (upload_url bucket oid) (upload_headers t) data.

Definition gcloud_args : list string := ["gcloud"; "auth"; "print-access-token"].

Definition terminate_reply : json := JDict [("event", JStr "terminate")].

(** The calls of a download and the line of a reply. *)
Definition token_call : call := SubprocessRun gcloud_args.

Definition bearer (t : completed_process) : list (string * string) :=
  [("Authorization", "Bearer " +:+ str_strip (proc_stdout t))].

Definition public_get `{PyLib} (bucket : option string) (oid : json) : call :=
  RequestsGet (public_url bucket oid) [].

Definition private_get `{PyLib} (bucket : option string) (oid : json)
    (t : completed_process) : call :=
  RequestsGet (private_url bucket oid) (bearer t).

Definition reply_line `{PyLib} (v : json) : string := json_dumps v +:+ nl.

(** The calls made since the state [st], in the state [st']. *)
Definition new_calls (st st' : state) : list call :=
  drop (length (calls st)) (calls st').

(** The state in which [handle_download] calls [download], and the one
    in which [handle_upload] calls [upload]: the dispatcher and the
    handler have logged, and the handler has read the bucket. *)
Definition at_download `{PyLib} (d : list (string * json)) (st : state) : state :=
  add_stderr ("Handling download for OID: " +:+ py_str (dict_get d "oid")
              +:+ ", Path: " +:+ py_str (dict_get d "path") +:+ nl)
    (add_call (Getenv "GCS_BUCKET")
       (add_stderr ("Processing event: " +:+ py_str (dict_get d "event") +:+ nl) st)).

Definition at_upload `{PyLib} (d : list (string * json)) (st : state) : state :=
  add_stderr ("Handling upload for OID: " +:+ py_str (dict_get d "oid")
              +:+ ", Path: " +:+ py_str (dict_get d "path") +:+ nl)
    (add_call (Getenv "GCS_BUCKET")
       (add_stderr ("Processing event: " +:+ py_str (dict_get d "event") +:+ nl) st)).

(** The state of an upload once the answer of the store is logged. *)
Definition answered `{PyLib} (bucket : option string) (oid : json)
    (t : completed_process) (data : list byte) (r : response) (st : state) : state :=
  add_stderr ("response received: " +:+ response_str r)
    (add_call (upload_post bucket oid t data)
       (add_call token_call (add_stderr "uploading file" st))).

(** ** The vocabulary of the further properties *)

(** A text that holds the separator of paths. *)
Fixpoint has_sep (s : string) : bool :=
  match s with
  | EmptyString => false
  | String c s' => Ascii.eqb c "/" || has_sep s'
  end.

(** The directory of the objects, with the separator after it. *)
Definition objects_dir : string := ".git/lfs/objects/".

(** A computation that writes nothing to standard output and takes no
    line from the input. *)
Definition silent {A} (m : M A) : Prop :=
  forall st o st', m st = (o, st') ->
    stdout st' = stdout st /\ lines_read st' = lines_read st.

(** A computation that takes no line from the input and that, when it
    returns, has written one line to standard output, the reply [v] with
    [Q v]; when it raises, it has written none. *)
Definition replies `{PyLib} {A} (Q : json -> Prop) (m : M A) : Prop :=
  forall st o st', m st = (o, st') ->
    lines_read st' = lines_read st
    /\ match o with
       | Ret _ => exists v, Q v /\ stdout st' = stdout st ++ [reply_line v]
       | Raise _ => stdout st' = stdout st
       end.

(** The [event] of the reply to an event the dispatcher knows. *)
Definition reply_name (event : json) : string :=
  if eq_str event "init" then "init"
  else if eq_str event "terminate" then "terminate"
  else "complete".

(** The reply [v] answers the event [d]: it carries the name of the
    reply and, for a transfer, the [oid] of the event. *)
Definition answers (d : list (string * json)) (v : json) : Prop :=
  payload_get v "event" = Ret (JStr (reply_name (dict_get d "event")))
  /\ (transfer (dict_get d "event") = true ->
      payload_get v "oid" = Ret (dict_get d "oid")).

(** A computation that, however it ends, leaves every file outside [allowed]
    as it was. *)
Definition only_files {A} (allowed : string -> Prop) (m : M A) : Prop :=
  forall st o st', m st = (o, st') ->
    forall p, ~ allowed p -> files st' !! p = files st !! p.

(** The paths a download event can write: the [path] it carries and the
    temporary path of its [oid]. *)
Definition download_paths (d : list (string * json)) (p : string) : Prop :=
  dict_get d "event" = JStr "download"
  /\ (dict_get d "path" = JStr p
      \/ exists oid, dict_get d "oid" = JStr oid /\ p = temporary_path oid).

(** A line that, where it decodes to an object, carries no file
    descriptor for [path]. *)
Definition names_no_descriptor `{PyLib} (line : list byte) : bool :=
  match json_loads (bytes_strip line) with
  | Ret (JDict d) => negb (descriptor (dict_get d "path"))
  | _ => true
  end.

(** ** Properties of the read loop *)

Lemma bytes_lstrip_blank (line : list byte) :
  blank line -> bytes_lstrip line = [].
Proof.
  induction 1 as [|b l Hb _ IH]; simpl; [reflexivity|].
  rewrite Hb. exact IH.
Qed.

Lemma bytes_strip_blank (line : list byte) :
  blank line -> bytes_strip line = [].
Proof.
  intros H. unfold bytes_strip. rewrite (bytes_lstrip_blank _ H). reflexivity.
Qed.

Section Loop.
Context `{lib : PyLib} (w : world).


Lemma read_loop_break (line : list byte) (rest : list (list byte)) (st st' : state) :
  iteration w line st = (Ret Break, st') ->
  read_loop w (line :: rest) st = (Ret tt, st').
Proof.
  intros H. simpl. monad_unfold. rewrite H. reflexivity.
Qed.

Lemma read_loop_raise (line : list byte) (rest : list (list byte)) (st st' : state) (e : exn) :
  iteration w line st = (Raise e, st') ->
  read_loop w (line :: rest) st = (Raise e, st').
Proof.
  intros H. simpl. monad_unfold. rewrite H. reflexivity.
Qed.


Lemma async_for_over (line : list byte) (rest : list (list byte)) (st : state) :
  within_limit line = false ->
  async_for w (line :: rest) st = (Raise ValueError, st).
Proof.
  intros Hl. cbn [async_for]. rewrite Hl. reflexivity.
Qed.

Lemma async_for_within (lines : list (list byte)) (st : state) :
  forallb within_limit lines = true ->
  async_for w lines st = read_loop w lines st.
Proof.
  revert st. induction lines as [|line rest IH]; intros st H; [reflexivity|].
  cbn [forallb] in H. apply andb_prop in H as [Hl Hr].
  cbn [async_for read_loop]. rewrite Hl. monad_unfold.
  destruct (iteration w line st) as [[[]|e] st1]; [apply IH, Hr | reflexivity | reflexivity].
Qed.

(** A line that is not blank and decodes to [payload] is handed to the
    dispatcher; the round ends as the dispatcher does. *)
Lemma iteration_decoded (line : list byte) (payload : json) (st : state) :
  bytes_strip line <> [] ->
  json_loads (bytes_strip line) = Ret payload ->
  iteration w line st =
    match process_event w payload (count_line st) with
    | (Ret _, st') => (Ret Continue, st')
    | (Raise (JSONDecodeError msg), st') =>
        (Ret Break, add_stderr ("Error decoding JSON: " +:+ msg +:+ nl) st')
    | (Raise e, st') => (Raise e, st')
    end.
Proof.
  intros Hne Hload. unfold iteration, try_line. monad_unfold. simpl.
  destruct (bytes_strip line) as [|b l] eqn:E; [congruence|]. simpl.
  rewrite Hload.
  destruct (process_event w payload _) as [[u|e] st']; [reflexivity|].
  destruct e; reflexivity.
Qed.

End Loop.

(** ** Properties of the state changes and of the helpers *)

Section Helpers.
Context `{lib : PyLib} (w : world).

Lemma put_file_twice (p : string) (a b : list byte) (st : state) :
  put_file p b (put_file p a st) = put_file p b st.
Proof.
  unfold put_file. simpl. f_equal. apply insert_insert_eq.
Qed.

Lemma files_put_file (p : string) (b : list byte) (st : state) :
  files (put_file p b st) !! p = Some b.
Proof. simpl. apply lookup_insert_eq. Qed.

Lemma files_put_file_other (p q : string) (b : list byte) (st : state) :
  p <> q -> files (put_file p b st) !! q = files st !! q.
Proof. intros H. simpl. apply lookup_insert_ne, H. Qed.

(** The chunks of a body, put end to end, are the body. *)
Lemma iter_content_go_concat (n fuel : nat) (body : list byte) :
  (0 < n)%nat -> (length body <= fuel)%nat ->
  concat (iter_content_go fuel n body) = body.
Proof.
  intros Hn. revert body.
  induction fuel as [|fuel IH]; intros body Hlen.
  - destruct body; [reflexivity | simpl in Hlen; lia].
  - destruct body as [|b body]; [reflexivity|].
    cbn [iter_content_go concat].
    rewrite IH.
    + apply take_drop.
    + rewrite length_drop. simpl in *. lia.
Qed.

Lemma iter_content_concat (n : nat) (body : list byte) :
  (0 < n)%nat -> concat (iter_content n body) = body.
Proof.
  intros Hn. apply iter_content_go_concat; [exact Hn | lia].
Qed.

(** No chunk is longer than the chunk size. *)
Lemma iter_content_go_bounded (n fuel : nat) (body : list byte) :
  Forall (fun chunk => (length chunk <= n)%nat) (iter_content_go fuel n body).
Proof.
  revert body. induction fuel as [|fuel IH]; intros body; [constructor|].
  destruct body as [|b body]; [constructor|].
  cbn [iter_content_go]. constructor; [|apply IH].
  rewrite length_take. lia.
Qed.

(** Writing the chunks after [acc] leaves [acc] followed by all of them. *)
Lemma write_chunks_put_file (p : string) (chunks : list (list byte))
    (acc : list byte) (st : state) :
  write_chunks p chunks (put_file p acc st)
  = (Ret tt, put_file p (acc ++ concat chunks) st).
Proof.
  revert acc. induction chunks as [|chunk rest IH]; intros acc.
  - simpl. rewrite app_nil_r. reflexivity.
  - cbn [write_chunks concat]. monad_unfold.
    destruct chunk as [|b chunk].
    + simpl. apply IH.
    + cbn [length Nat.eqb]. unfold append_file.
      rewrite files_put_file. cbn [default]. rewrite put_file_twice.
      rewrite IH. rewrite <- app_assoc. reflexivity.
Qed.

Lemma write_to_file_str (r : response) (p : string) (st : state) :
  can_write w p = true ->
  _write_to_file w r (JStr p) st = (Ret tt, put_file p (content r) st).
Proof.
  intros Hw. unfold _write_to_file, open_wb. rewrite Hw.
  monad_unfold. unfold set_file.
  rewrite write_chunks_put_file. rewrite iter_content_concat.
  - reflexivity.
  - unfold chunk_size. lia.
Qed.

Lemma write_to_file_refused (r : response) (p : string) (st : state) :
  can_write w p = false ->
  _write_to_file w r (JStr p) st = (Raise (path_error p), st).
Proof.
  intros Hw. unfold _write_to_file, open_wb. rewrite Hw. reflexivity.
Qed.

Lemma requests_get_eq (url : string) (headers : list (string * string)) (st : state) :
  requests_get w url headers st
  = (http_get w (calls st) url headers, add_call (RequestsGet url headers) st).
Proof. reflexivity. Qed.

Lemma requests_post_eq (url : string) (headers : list (string * string))
    (data : list byte) (st : state) :
  requests_post w url headers data st
  = (http_post w (calls st) url headers data, add_call (RequestsPost url headers data) st).
Proof. reflexivity. Qed.

Lemma os_getenv_eq (name : string) (st : state) :
  os_getenv w name st = (Ret (environ w name), add_call (Getenv name) st).
Proof. reflexivity. Qed.

(** The three ways the token fetch ends. *)
Lemma get_access_token_ok (t : completed_process) (st : state) :
  run_process w (calls st) gcloud_args = Ret t ->
  returncode t = 0 ->
  get_access_token w st
  = (Ret (str_strip (proc_stdout t)), add_call (SubprocessRun gcloud_args) st).
Proof.
  intros Hr Hc. unfold get_access_token, subprocess_run. monad_unfold.
  unfold log_call. fold gcloud_args. rewrite Hr, Hc. reflexivity.
Qed.

Lemma get_access_token_refused (t : completed_process) (st : state) :
  run_process w (calls st) gcloud_args = Ret t ->
  returncode t <> 0 ->
  get_access_token w st
  = (Raise (RuntimeError ("Error fetching access token: " +:+ proc_stderr t)),
     add_call (SubprocessRun gcloud_args) st).
Proof.
  intros Hr Hc. unfold get_access_token, subprocess_run. monad_unfold.
  unfold log_call. fold gcloud_args. rewrite Hr.
  apply Z.eqb_neq in Hc. rewrite Hc. reflexivity.
Qed.

Lemma get_access_token_raised (e : exn) (st : state) :
  run_process w (calls st) gcloud_args = Raise e ->
  get_access_token w st = (Raise e, add_call (SubprocessRun gcloud_args) st).
Proof.
  intros Hr. unfold get_access_token, subprocess_run. monad_unfold.
  unfold log_call. fold gcloud_args. rewrite Hr. reflexivity.
Qed.

End Helpers.

(** ** The download, case by case *)

Section Download.
Context `{lib : PyLib} (w : world).
Variables (bucket : option string) (oid : string) (st : state).

(** The public GET is answered 200: the body goes to the temporary
    path, the reply carries the path of the event. *)
Lemma download_public_ok (path : json) (r : response) :
  http_get w (calls st) (public_url bucket (JStr oid)) [] = Ret r ->
  status_code r = 200 ->
  can_write w (temporary_path oid) = true ->
  download w bucket (JStr oid) path st
  = (Ret tt, add_stdout (reply_line (complete_download (JStr oid) path))
               (put_file (temporary_path oid) (content r)
                  (add_call (public_get bucket (JStr oid)) st))).
Proof.
  intros H1 S1 Hw. unfold download. monad_unfold.
  rewrite requests_get_eq, H1. cbn [get_temporary_path]. rewrite S1.
  cbn [Z.eqb Pos.eqb]. rewrite write_to_file_str by exact Hw. reflexivity.
Qed.

(** The public GET is answered by a status other than 200 and 403. *)
Lemma download_public_failed (path : json) (r : response) :
  http_get w (calls st) (public_url bucket (JStr oid)) [] = Ret r ->
  status_code r <> 200 ->
  status_code r <> 403 ->
  download w bucket (JStr oid) path st
  = (Raise (download_error r), add_call (public_get bucket (JStr oid)) st).
Proof.
  intros H1 S1 S1'. unfold download. monad_unfold.
  rewrite requests_get_eq, H1. cbn [get_temporary_path].
  apply Z.eqb_neq in S1, S1'. rewrite S1, S1'. reflexivity.
Qed.

(** The public GET raises. *)
Lemma download_public_raised (path : json) (e : exn) :
  http_get w (calls st) (public_url bucket (JStr oid)) [] = Raise e ->
  download w bucket (JStr oid) path st
  = (Raise e, add_call (public_get bucket (JStr oid)) st).
Proof.
  intros H1. unfold download. monad_unfold.
  rewrite requests_get_eq, H1. reflexivity.
Qed.

(** The public GET is answered 403 and the token fetch does not return. *)
Lemma download_no_token (path : json) (r : response) (e : exn) :
  http_get w (calls st) (public_url bucket (JStr oid)) [] = Ret r ->
  status_code r = 403 ->
  get_access_token w (add_call (public_get bucket (JStr oid)) st)
  = (Raise e, add_call token_call (add_call (public_get bucket (JStr oid)) st)) ->
  download w bucket (JStr oid) path st
  = (Raise e, add_call token_call (add_call (public_get bucket (JStr oid)) st)).
Proof.
  intros H1 S1 Ht. unfold download. monad_unfold.
  rewrite requests_get_eq, H1. cbn [get_temporary_path]. rewrite S1.
  cbn [Z.eqb Pos.eqb]. unfold public_get in Ht. rewrite Ht. reflexivity.
Qed.

Section Fallback.
Variables (r : response) (t : completed_process).
Hypothesis public_answer :
  http_get w (calls st) (public_url bucket (JStr oid)) [] = Ret r.
Hypothesis public_forbidden : status_code r = 403.
Hypothesis token_answer :
  run_process w (calls st ++ [public_get bucket (JStr oid)]) gcloud_args = Ret t.
Hypothesis token_fetched : returncode t = 0.

Lemma download_private_step (path : json) :
  download w bucket (JStr oid) path st
  = match http_get w ((calls st ++ [public_get bucket (JStr oid)]) ++ [token_call])
            (private_url bucket (JStr oid)) (bearer t) with
    | Ret r' =>
        if status_code r' =? 200 then
          (_write_to_file w r' path;;
           stdout_write (reply_line (complete_download (JStr oid) path)))
            (add_call (private_get bucket (JStr oid) t)
               (add_call token_call (add_call (public_get bucket (JStr oid)) st)))
        else (Raise (download_error r'),
              add_call (private_get bucket (JStr oid) t)
                (add_call token_call (add_call (public_get bucket (JStr oid)) st)))
    | Raise e =>
        (Raise e, add_call (private_get bucket (JStr oid) t)
                    (add_call token_call (add_call (public_get bucket (JStr oid)) st)))
    end.
Proof.
  unfold download. monad_unfold.
  rewrite requests_get_eq, public_answer. cbn [get_temporary_path].
  rewrite public_forbidden. cbn [Z.eqb Pos.eqb].
  rewrite (get_access_token_ok w t) by assumption.
  rewrite requests_get_eq. cbn [calls add_call]. fold token_call.
  unfold public_get, private_get, bearer.
  destruct (http_get w ((calls st ++ _) ++ _) _ _) as [r'|e]; [|reflexivity].
  destruct (status_code r' =? 200); reflexivity.
Qed.

(** The authenticated GET is answered 200: the body goes to the path of
    the event, which the reply carries. *)
Lemma download_private_ok (path : string) (r' : response) :
  http_get w ((calls st ++ [public_get bucket (JStr oid)]) ++ [token_call])
    (private_url bucket (JStr oid)) (bearer t) = Ret r' ->
  status_code r' = 200 ->
  can_write w path = true ->
  download w bucket (JStr oid) (JStr path) st
  = (Ret tt, add_stdout (reply_line (complete_download (JStr oid) (JStr path)))
               (put_file path (content r')
                  (add_call (private_get bucket (JStr oid) t)
                     (add_call token_call (add_call (public_get bucket (JStr oid)) st))))).
Proof.
  intros H2 S2 Hw. rewrite download_private_step, H2, S2. cbn [Z.eqb Pos.eqb].
  monad_unfold. rewrite write_to_file_str by exact Hw. reflexivity.
Qed.

(** The authenticated GET is answered by a status other than 200. *)
Lemma download_private_failed (path : json) (r' : response) :
  http_get w ((calls st ++ [public_get bucket (JStr oid)]) ++ [token_call])
    (private_url bucket (JStr oid)) (bearer t) = Ret r' ->
  status_code r' <> 200 ->
  download w bucket (JStr oid) path st
  = (Raise (download_error r'),
     add_call (private_get bucket (JStr oid) t)
       (add_call token_call (add_call (public_get bucket (JStr oid)) st))).
Proof.
  intros H2 S2. rewrite download_private_step, H2.
  apply Z.eqb_neq in S2. rewrite S2. reflexivity.
Qed.

End Fallback.
End Download.

(** ** The dispatcher *)

Section Dispatch.
Context `{lib : PyLib} (w : world).

Lemma process_event_download (d : list (string * json)) (st : state) :
  dict_get d "event" = JStr "download" ->
  process_event w (JDict d) st
  = download w (environ w "GCS_BUCKET") (dict_get d "oid") (dict_get d "path")
      (at_download d st).
Proof.
  intros He. unfold process_event, handle_download, at_download. monad_unfold.
  cbn [payload_get]. rewrite He. reflexivity.
Qed.

Lemma process_event_upload (d : list (string * json)) (st : state) :
  dict_get d "event" = JStr "upload" ->
  process_event w (JDict d) st
  = upload w (environ w "GCS_BUCKET") (dict_get d "oid") (dict_get d "path")
      (at_upload d st).
Proof.
  intros He. unfold process_event, handle_upload, at_upload. monad_unfold.
  cbn [payload_get]. rewrite He. reflexivity.
Qed.

Lemma process_event_init (d : list (string * json)) (st : state) :
  dict_get d "event" = JStr "init" ->
  process_event w (JDict d) st
  = (Ret tt,
     add_stderr ("Init event processed and response flushed" +:+ nl)
       (add_stdout (reply_line (JDict [("event", JStr "init")]))
          (add_stderr ("Handling init: " +:+ py_str (JDict d) +:+ nl)
             (add_stderr ("Processing event: init" +:+ nl) st)))).
Proof.
  intros He. unfold process_event, handle_init. monad_unfold.
  cbn [payload_get]. rewrite He. reflexivity.
Qed.

Lemma process_event_terminate (d : list (string * json)) (st : state) :
  dict_get d "event" = JStr "terminate" ->
  process_event w (JDict d) st
  = (Ret tt,
     add_stderr ("Terminate event processed" +:+ nl)
       (add_stdout (reply_line terminate_reply)
          (add_stderr ("Handling terminate event" +:+ nl)
             (add_stderr ("Processing event: terminate" +:+ nl) st)))).
Proof.
  intros He. unfold process_event, handle_terminate. monad_unfold.
  cbn [payload_get]. rewrite He. reflexivity.
Qed.

Lemma process_event_unrecognised (d : list (string * json)) (st : state) :
  recognised (dict_get d "event") = false ->
  process_event w (JDict d) st
  = (Ret tt,
     add_stderr ("Unsupported event: " +:+ py_str (dict_get d "event") +:+ nl)
       (add_stderr ("Processing event: " +:+ py_str (dict_get d "event") +:+ nl) st)).
Proof.
  intros Hrec. unfold recognised in Hrec.
  apply orb_false_elim in Hrec as [Hrec Ht].
  apply orb_false_elim in Hrec as [Hrec Hd].
  apply orb_false_elim in Hrec as [Hi Hu].
  unfold process_event. monad_unfold. cbn [payload_get].
  rewrite Hi, Hu, Hd, Ht. reflexivity.
Qed.

(** What [_write_to_file] leaves alone. *)
Lemma write_to_file_frame (r : response) (path : json) (st st' : state) (o : outcome unit) :
  _write_to_file w r path st = (o, st') ->
  calls st' = calls st /\ stdout st' = stdout st /\ stderr st' = stderr st.
Proof.
  intros H. destruct path as [| | | |p| |];
    try (unfold _write_to_file, open_wb in H; monad_unfold;
         injection H as _ <-; auto).
  destruct (can_write w p) eqn:Hw.
  - rewrite write_to_file_str in H by exact Hw. injection H as _ <-. auto.
  - rewrite write_to_file_refused in H by exact Hw. injection H as _ <-. auto.
Qed.

End Dispatch.

Section LoopClaims.
Context `{lib : PyLib} (w : world).



End LoopClaims.

(** ** The download claims *)

Section DownloadClaims.
Context `{lib : PyLib} (w : world).

Lemma new_calls_app (st st' : state) (l : list call) :
  calls st' = calls st ++ l -> new_calls st st' = l.
Proof.
  intros H. unfold new_calls. rewrite H. apply drop_app_length.
Qed.

(** C5, as the code has it. A download event with a string [oid] and a
    string [path], whose public GET is answered 403, whose token is
    fetched, whose GET with the bearer token is answered 200 and whose
    [path] can be opened for writing, writes the body to the path of the
    event and replies [complete] with the [oid] and that path; no other
    file changes, and the calls made are the read of the bucket, the
    public GET, the token fetch and the authenticated GET. *)
Theorem download_private_to_event_path (d : list (string * json)) (oid path : string)
    (r r' : response) (t : completed_process) (st : state) :
  dict_get d "event" = JStr "download" ->
  dict_get d "oid" = JStr oid ->
  dict_get d "path" = JStr path ->
  let bucket := environ w "GCS_BUCKET" in
  let h := calls st ++ [Getenv "GCS_BUCKET"] in
  let public := "https://storage.googleapis.com/" +:+ str_opt bucket
                +:+ "/PIFSC%2FSOD%2Fgit_lfs_test%2F" +:+ oid in
  let private := "https://storage.googleapis.com/storage/v1/b/" +:+ str_opt bucket
                 +:+ "/o/PIFSC%2FSOD%2Fgit_lfs_test%2F" +:+ oid +:+ "?alt=media" in
  let gcloud := ["gcloud"; "auth"; "print-access-token"] in
  let auth := [("Authorization", "Bearer " +:+ str_strip (proc_stdout t))] in
  http_get w h public [] = Ret r ->
  status_code r = 403 ->
  run_process w (h ++ [RequestsGet public []]) gcloud = Ret t ->
  returncode t = 0 ->
  http_get w ((h ++ [RequestsGet public []]) ++ [SubprocessRun gcloud]) private auth
  = Ret r' ->
  status_code r' = 200 ->
  can_write w path = true ->
  exists st',
    process_event w (JDict d) st = (Ret tt, st')
    /\ stdout st'
       = stdout st
         ++ [json_dumps (JDict [("event", JStr "complete"); ("oid", JStr oid);
                                ("path", JStr path)]) +:+ nl]
    /\ files st' !! path = Some (content r')
    /\ (forall p, p <> path -> files st' !! p = files st !! p)
    /\ new_calls st st' = [Getenv "GCS_BUCKET"; RequestsGet public [];
                           SubprocessRun gcloud; RequestsGet private auth].
Proof.
  intros He Ho Hp bucket h public private gcloud auth H1 S1 Ht St H2 S2 Hw.
  rewrite process_event_download by exact He. rewrite Ho, Hp.
  rewrite (download_private_ok w bucket oid (at_download d st) r t)
    with (r' := r') by assumption.
  eexists. split; [reflexivity|].
  split; [reflexivity|].
  split; [apply files_put_file|].
  split.
  - intros p Hne. cbn [files add_stdout].
    rewrite files_put_file_other by congruence. reflexivity.
  - apply new_calls_app. cbn [calls add_stdout put_file add_call at_download add_stderr].
    rewrite <- !app_assoc. reflexivity.
Qed.

(** C7, as the code has it. In the download of an object named by a
    string, whose public GET is answered by [r]: a GET with an
    [Authorization] header is made exactly when [r] is a 403 and the
    token fetch returns with code 0. When [r] is neither 200 nor 403 the
    download raises the [RuntimeError] whose message is
    [Error downloading file: ] followed by the status and the text of
    [r]; when [r] is a 403 and the credential tool ends with another
    code, it raises the error of the token fetch, with what the tool
    wrote to its standard error, after the public GET and the run of the
    tool only; when the authenticated GET is answered by [r'] other than
    200, it raises the error with the status and the text of [r']. In
    the three failures nothing is written to standard output. *)
Theorem download_fallback (bucket : option string) (oid : string) (path : json)
    (r : response) (st st' : state) (o : outcome unit) :
  let public := "https://storage.googleapis.com/" +:+ str_opt bucket
                +:+ "/PIFSC%2FSOD%2Fgit_lfs_test%2F" +:+ oid in
  let private := "https://storage.googleapis.com/storage/v1/b/" +:+ str_opt bucket
                 +:+ "/o/PIFSC%2FSOD%2Fgit_lfs_test%2F" +:+ oid +:+ "?alt=media" in
  let gcloud := ["gcloud"; "auth"; "print-access-token"] in
  http_get w (calls st) public [] = Ret r ->
  download w bucket (JStr oid) path st = (o, st') ->
  (existsb authenticated_get (new_calls st st') = true
   <-> status_code r = 403
       /\ exists t,
            run_process w (calls st ++ [RequestsGet public []]) gcloud = Ret t
            /\ returncode t = 0)
  /\ (status_code r <> 200 -> status_code r <> 403 ->
      o = Raise (RuntimeError ("Error downloading file: " +:+ pretty (status_code r)
                               +:+ " " +:+ text r))
      /\ stdout st' = stdout st)
  /\ (forall t,
        status_code r = 403 ->
        run_process w (calls st ++ [RequestsGet public []]) gcloud = Ret t ->
        returncode t <> 0 ->
        o = Raise (RuntimeError ("Error fetching access token: " +:+ proc_stderr t))
        /\ stdout st' = stdout st
        /\ new_calls st st' = [RequestsGet public []; SubprocessRun gcloud])
  /\ (forall t r',
        status_code r = 403 ->
        run_process w (calls st ++ [RequestsGet public []]) gcloud = Ret t ->
        returncode t = 0 ->
        http_get w ((calls st ++ [RequestsGet public []]) ++ [SubprocessRun gcloud])
          private [("Authorization", "Bearer " +:+ str_strip (proc_stdout t))] = Ret r' ->
        status_code r' <> 200 ->
        o = Raise (RuntimeError ("Error downloading file: " +:+ pretty (status_code r')
                                 +:+ " " +:+ text r'))
        /\ stdout st' = stdout st).
Proof.
  intros public private gcloud H1 Hd.
  change (RequestsGet public []) with (public_get bucket (JStr oid)).
  change (SubprocessRun gcloud) with token_call.
  change gcloud with gcloud_args.
  change public with (public_url bucket (JStr oid)) in H1.
  change private with (private_url bucket (JStr oid)).
  clear public private gcloud.
  fold (download_error r).
  destruct (Z.eq_dec (status_code r) 200) as [S200|S200].
  { (* answered 200: one call, the public GET *)
    assert (Hc : new_calls st st' = [public_get bucket (JStr oid)]).
    { apply new_calls_app. revert Hd. unfold download. monad_unfold.
      rewrite requests_get_eq, H1. cbn [get_temporary_path]. rewrite S200.
      cbn [Z.eqb Pos.eqb].
      destruct (_write_to_file w r _ _) as [[u|e] st1] eqn:Hwf;
        apply write_to_file_frame in Hwf as (Hc & _);
        intros Hd; injection Hd as _ <-; cbn [calls add_stdout]; rewrite Hc;
        reflexivity. }
    rewrite Hc. cbn [existsb authenticated_get public_get orb].
    split; [|split; [|split]].
    - split; [discriminate | intros [S _]; lia].
    - intros; contradiction.
    - intros; lia.
    - intros; lia. }
  destruct (Z.eq_dec (status_code r) 403) as [S403|S403].
  2:{ (* answered by another status *)
    rewrite (download_public_failed w bucket oid st path r) in Hd by assumption.
    injection Hd as <- <-.
    rewrite (new_calls_app st _ [public_get bucket (JStr oid)]) by reflexivity.
    cbn [existsb authenticated_get public_get orb].
    split; [|split; [|split]].
    - split; [discriminate | intros [S _]; contradiction].
    - intros; split; reflexivity.
    - intros; contradiction.
    - intros; contradiction. }
  (* answered 403 *)
  destruct (run_process w (calls st ++ [public_get bucket (JStr oid)]) gcloud_args)
    as [t|e] eqn:Ht.
  2:{ rewrite (download_no_token w bucket oid st path r e) in Hd;
        [|assumption|assumption|apply get_access_token_raised; exact Ht].
      injection Hd as <- <-.
      rewrite (new_calls_app st _ [public_get bucket (JStr oid); token_call])
        by (cbn [calls add_call]; rewrite <- app_assoc; reflexivity).
      cbn [existsb authenticated_get public_get token_call orb].
      split; [|split; [|split]].
      - split; [discriminate | intros [_ (t & Hx & _)]; discriminate].
      - intros; contradiction.
      - intros; discriminate.
      - intros; discriminate. }
  destruct (Z.eq_dec (returncode t) 0) as [St|St].
  2:{ rewrite (download_no_token w bucket oid st path r
                 (RuntimeError ("Error fetching access token: " +:+ proc_stderr t))) in Hd;
        [|assumption|assumption|apply get_access_token_refused; assumption].
      injection Hd as <- <-.
      rewrite (new_calls_app st _ [public_get bucket (JStr oid); token_call])
        by (cbn [calls add_call]; rewrite <- app_assoc; reflexivity).
      cbn [existsb authenticated_get public_get token_call orb].
      split; [|split; [|split]].
      - split; [discriminate | intros [_ (t' & Hx & Hy)]].
        injection Hx as <-. contradiction.
      - intros; contradiction.
      - intros t' _ Hx _. injection Hx as <-. repeat split.
      - intros t' r' _ Hx Hy. injection Hx as <-. contradiction. }
  (* the token is there: the authenticated GET is made *)
  rewrite (download_private_step w bucket oid st r t) in Hd by assumption.
  assert (Hc : new_calls st st'
               = [public_get bucket (JStr oid); token_call;
                  private_get bucket (JStr oid) t]
               /\ forall r', http_get w ((calls st ++ [public_get bucket (JStr oid)])
                                          ++ [token_call])
                               (private_url bucket (JStr oid)) (bearer t) = Ret r' ->
                             status_code r' <> 200 ->
                             o = Raise (download_error r') /\ stdout st' = stdout st).
  { destruct (http_get w ((calls st ++ _) ++ _) _ _) as [r'|e] eqn:H2.
    - destruct (status_code r' =? 200) eqn:S2.
      + split.
        * apply new_calls_app. revert Hd. monad_unfold.
          destruct (_write_to_file w r' _ _) as [[u|e] st1] eqn:Hwf;
            apply write_to_file_frame in Hwf as (Hc & _);
            intros Hd; injection Hd as _ <-; cbn [calls add_stdout]; rewrite Hc;
            cbn [calls add_call]; rewrite <- !app_assoc; reflexivity.
        * intros r'' Hx Hy. injection Hx as <-. apply Z.eqb_eq in S2. contradiction.
      + injection Hd as <- <-. split.
        * apply new_calls_app. cbn [calls add_call]. rewrite <- !app_assoc. reflexivity.
        * intros r'' Hx _. injection Hx as <-. split; reflexivity.
    - injection Hd as <- <-. split.
      + apply new_calls_app. cbn [calls add_call]. rewrite <- !app_assoc. reflexivity.
      + intros r'' Hx. discriminate. }
  destruct Hc as [Hc Hfail]. rewrite Hc.
  split; [|split; [|split]].
  - split; [intros _; split; [assumption | exists t; split; auto] | intros _; reflexivity].
  - intros; contradiction.
  - intros t' _ Hx Hy. injection Hx as <-. contradiction.
  - intros t' r' _ Hx _ H2 S2. injection Hx as <-. apply Hfail; assumption.
Qed.

End DownloadClaims.

(** ** The upload *)

Section Upload.
Context `{lib : PyLib} (w : world).
Variables (bucket : option string) (oid : json) (path : string) (st : state).
Variables (t : completed_process) (data : list byte) (r : response).
Hypothesis token_answer : run_process w (calls st) gcloud_args = Ret t.
Hypothesis token_fetched : returncode t = 0.
Hypothesis file_there : files st !! path = Some data.
Hypothesis store_answer :
  http_post w (calls st ++ [token_call]) (upload_url bucket oid) (upload_headers t) data
  = Ret r.

(** The upload once the token is fetched, the file read and the request
    answered: what is left is the test of the status and, on 200, the
    log of the decoded answer before the reply. *)
Lemma upload_step :
  upload w bucket oid (JStr path) st
  = if status_code r =? 200 then
      match body_json r with
      | Decoded v =>
          (Ret tt,
           add_stderr "upload event concluded"
             (add_stdout
                (reply_line (complete_upload oid (Z.of_nat (length data))))
                (add_stderr (py_str v)
                   (add_stderr "completing upload event"
                      (answered bucket oid t data r st)))))
      | Undecodable msg =>
          (Raise (JSONDecodeError msg),
           add_stderr "completing upload event" (answered bucket oid t data r st))
      end
    else (Raise (upload_error r), answered bucket oid t data r st).
Proof.
  unfold upload, answered. monad_unfold. unfold stderr_write at 1.
  rewrite (get_access_token_ok w t) by assumption.
  unfold open_rb. cbn [files add_call add_stderr]. rewrite file_there.
  rewrite requests_post_eq. cbn [calls add_call add_stderr]. fold token_call.
  fold (upload_headers t). rewrite store_answer.
  unfold stderr_write at 1. fold (upload_post bucket oid t data).
  destruct (status_code r =? 200); [|reflexivity].
  unfold stderr_write at 1. unfold response_json.
  destruct (body_json r) as [v|msg]; [|reflexivity].
  monad_unfold. unfold stderr_write at 1. unfold getsize.
  cbn [files add_call add_stderr]. rewrite file_there. reflexivity.
Qed.

End Upload.

(** ** The upload claim *)

Section UploadClaims.
Context `{lib : PyLib} (w : world).

(** C6, as the code has it. An upload event with a string [path], whose
    token is fetched, whose file holds [data] and whose POST is answered
    200 with a body that decodes as JSON, replies [complete] with the
    [oid] of the event and with the number of bytes of [data] as [size]:
    the size is the length of the local file whatever the answer [r]
    carries, of which only the status and the decoded body are logged.
    The file is left as it was, and the calls made are the read of the
    bucket, the token fetch and the POST of [data]. *)
Theorem upload_reports_local_size (d : list (string * json)) (path : string)
    (t : completed_process) (data : list byte) (r : response) (v : json) (st : state) :
  dict_get d "event" = JStr "upload" ->
  dict_get d "path" = JStr path ->
  let bucket := environ w "GCS_BUCKET" in
  let oid := dict_get d "oid" in
  let h := calls st ++ [Getenv "GCS_BUCKET"] in
  let url := "https://storage.googleapis.com/upload/storage/v1/b/" +:+ str_opt bucket
             +:+ "/o?uploadType=media&name=PIFSC%2FSOD%2Fgit_lfs_test%2F" +:+ py_str oid in
  let gcloud := ["gcloud"; "auth"; "print-access-token"] in
  let headers := [("Content-Type", "application/octet-stream");
                  ("Authorization", "Bearer " +:+ str_strip (proc_stdout t))] in
  run_process w h gcloud = Ret t ->
  returncode t = 0 ->
  files st !! path = Some data ->
  http_post w (h ++ [SubprocessRun gcloud]) url headers data = Ret r ->
  status_code r = 200 ->
  body_json r = Decoded v ->
  exists st',
    process_event w (JDict d) st = (Ret tt, st')
    /\ stdout st'
       = stdout st
         ++ [json_dumps (JDict [("event", JStr "complete"); ("oid", oid);
                                ("size", JInt (Z.of_nat (length data)))]) +:+ nl]
    /\ stderr st'
       = stderr st
         ++ ["Processing event: upload" +:+ nl;
             "Handling upload for OID: " +:+ py_str oid +:+ ", Path: " +:+ path +:+ nl;
             "uploading file";
             "response received: <Response [200]>";
             "completing upload event";
             py_str v;
             "upload event concluded"]
    /\ files st' = files st
    /\ new_calls st st' = [Getenv "GCS_BUCKET"; SubprocessRun gcloud;
                           RequestsPost url headers data].
Proof.
  intros He Hp bucket oid h url gcloud headers Ht St Hf Hpost S200 Hj.
  rewrite process_event_upload by exact He. rewrite Hp.
  rewrite (upload_step w bucket oid path (at_upload d st) t data r)
    by assumption.
  rewrite S200, Hj. cbn [Z.eqb Pos.eqb].
  eexists. split; [reflexivity|].
  split; [reflexivity|].
  split.
  { cbn [stderr add_stdout add_call add_stderr at_upload answered].
    unfold response_str. rewrite S200, He, Hp. cbn [py_str].
    rewrite <- !app_assoc. reflexivity. }
  split; [reflexivity|].
  apply new_calls_app.
  cbn [calls add_stdout add_call add_stderr at_upload answered].
  rewrite <- !app_assoc. reflexivity.
Qed.

(** The same upload answered 200 with a body that is not JSON: the log of
    [response.json()] raises before the reply, nothing is written to
    standard output, and the read loop takes the error for a line that
    is not JSON. *)
Lemma upload_undecodable_answer (d : list (string * json)) (path : string)
    (t : completed_process) (data : list byte) (r : response) (msg : string) (st : state) :
  dict_get d "event" = JStr "upload" ->
  dict_get d "path" = JStr path ->
  let bucket := environ w "GCS_BUCKET" in
  let oid := dict_get d "oid" in
  let h := calls st ++ [Getenv "GCS_BUCKET"] in
  run_process w h gcloud_args = Ret t ->
  returncode t = 0 ->
  files st !! path = Some data ->
  http_post w (h ++ [token_call]) (upload_url bucket oid) (upload_headers t) data = Ret r ->
  status_code r = 200 ->
  body_json r = Undecodable msg ->
  exists st',
    process_event w (JDict d) st = (Raise (JSONDecodeError msg), st')
    /\ stdout st' = stdout st.
Proof.
  intros He Hp bucket oid h Ht St Hf Hpost S200 Hj.
  rewrite process_event_upload by exact He. rewrite Hp.
  rewrite (upload_step w bucket oid path (at_upload d st) t data r)
    by assumption.
  rewrite S200, Hj. cbn [Z.eqb Pos.eqb].
  eexists. split; reflexivity.
Qed.

End UploadClaims.

(** ** Which calls a computation makes *)

Section Calls.
Context `{lib : PyLib} (w : world).
Variable P : call -> Prop.

Lemma only_calls_same {A} (m : M A) :
  (forall st o st', m st = (o, st') -> calls st' = calls st) ->
  only_calls P m.
Proof.
  intros H st o st' E. exists []. rewrite app_nil_r. split; [eauto | constructor].
Qed.

Lemma only_calls_ret {A} (a : A) : only_calls P (mret a).
Proof. apply only_calls_same. intros st o st' E. injection E as _ <-. reflexivity. Qed.

Lemma only_calls_raise {A} (e : exn) : only_calls P (raise e : M A).
Proof. apply only_calls_same. intros st o st' E. injection E as _ <-. reflexivity. Qed.

Lemma only_calls_lift {A} (o : outcome A) : only_calls P (lift o).
Proof. apply only_calls_same. intros st o' st' E. injection E as _ <-. reflexivity. Qed.

Lemma only_calls_bind {A B} (m : M A) (k : A -> M B) :
  only_calls P m -> (forall a, only_calls P (k a)) -> only_calls P (m ≫= k).
Proof.
  intros Hm Hk st o st' E. monad_unfold.
  destruct (m st) as [[a|e] st1] eqn:Em.
  - destruct (Hm _ _ _ Em) as (l1 & E1 & F1).
    destruct (Hk a _ _ _ E) as (l2 & E2 & F2).
    exists (l1 ++ l2). split.
    + rewrite E2, E1, app_assoc. reflexivity.
    + apply Forall_app. split; assumption.
  - injection E as _ <-. exact (Hm _ _ _ Em).
Qed.

Lemma only_calls_stdout_write (s : string) : only_calls P (stdout_write s).
Proof. apply only_calls_same. intros st o st' E. injection E as _ <-. reflexivity. Qed.

Lemma only_calls_stderr_write (s : string) : only_calls P (stderr_write s).
Proof. apply only_calls_same. intros st o st' E. injection E as _ <-. reflexivity. Qed.

Lemma only_calls_set_file (p : string) (b : list byte) : only_calls P (set_file p b).
Proof. apply only_calls_same. intros st o st' E. injection E as _ <-. reflexivity. Qed.

Lemma only_calls_append_file (p : string) (b : list byte) : only_calls P (append_file p b).
Proof. apply only_calls_same. intros st o st' E. injection E as _ <-. reflexivity. Qed.

Lemma only_calls_log_call (c : call) : P c -> only_calls P (log_call c).
Proof.
  intros Hc st o st' E. injection E as _ <-. exists [c].
  split; [reflexivity | repeat constructor; exact Hc].
Qed.

Lemma only_calls_requests_get (url : string) (headers : list (string * string)) :
  P (RequestsGet url headers) -> only_calls P (requests_get w url headers).
Proof.
  intros Hc st o st' E. rewrite requests_get_eq in E. injection E as _ <-.
  exists [RequestsGet url headers]. split; [reflexivity | repeat constructor; exact Hc].
Qed.

Lemma only_calls_requests_post (url : string) (headers : list (string * string))
    (data : list byte) :
  P (RequestsPost url headers data) -> only_calls P (requests_post w url headers data).
Proof.
  intros Hc st o st' E. rewrite requests_post_eq in E. injection E as _ <-.
  exists [RequestsPost url headers data].
  split; [reflexivity | repeat constructor; exact Hc].
Qed.

Lemma only_calls_subprocess_run (args : list string) :
  P (SubprocessRun args) -> only_calls P (subprocess_run w args).
Proof.
  intros Hc st o st' E. unfold subprocess_run in E. monad_unfold.
  unfold log_call in E. injection E as _ <-.
  exists [SubprocessRun args]. split; [reflexivity | repeat constructor; exact Hc].
Qed.

Lemma only_calls_open_wb (path : json) : only_calls P (open_wb w path).
Proof.
  destruct path; try apply only_calls_raise. unfold open_wb.
  destruct (can_write w s); [|apply only_calls_raise].
  apply only_calls_bind; [apply only_calls_set_file | intros; apply only_calls_ret].
Qed.

Lemma only_calls_open_rb (path : json) : only_calls P (open_rb path).
Proof.
  destruct path; try apply only_calls_raise.
  apply only_calls_same. intros st o st' E. unfold open_rb in E.
  destruct (files st !! s); injection E as _ <-; reflexivity.
Qed.

Lemma only_calls_getsize (path : json) : only_calls P (getsize path).
Proof.
  destruct path; try apply only_calls_raise.
  apply only_calls_same. intros st o st' E. unfold getsize in E.
  destruct (files st !! s); injection E as _ <-; reflexivity.
Qed.

Lemma only_calls_write_chunks (p : string) (chunks : list (list byte)) :
  only_calls P (write_chunks p chunks).
Proof.
  induction chunks as [|chunk rest IH]; [apply only_calls_ret|].
  cbn [write_chunks]. apply only_calls_bind; [|intros; exact IH].
  destruct (length chunk =? 0)%nat;
    [apply only_calls_ret | apply only_calls_append_file].
Qed.

Lemma only_calls_write_to_file (r : response) (path : json) :
  only_calls P (_write_to_file w r path).
Proof.
  unfold _write_to_file. apply only_calls_bind;
    [apply only_calls_open_wb | intros; apply only_calls_write_chunks].
Qed.

Hypothesis P_get : forall url headers, P (RequestsGet url headers).
Hypothesis P_post : forall url headers data, P (RequestsPost url headers data).
Hypothesis P_run : forall args, P (SubprocessRun args).

Lemma only_calls_get_access_token : only_calls P (get_access_token w).
Proof.
  unfold get_access_token. apply only_calls_bind.
  - apply only_calls_subprocess_run, P_run.
  - intros result. destruct (returncode result =? 0);
      [apply only_calls_ret | apply only_calls_raise].
Qed.

Lemma only_calls_download (bucket : option string) (object_name destination_path : json) :
  only_calls P (download w bucket object_name destination_path).
Proof.
  unfold download.
  apply only_calls_bind; [apply only_calls_requests_get, P_get | intros r].
  apply only_calls_bind; [apply only_calls_lift | intros temp_path].
  destruct (status_code r =? 200).
  { apply only_calls_bind;
      [apply only_calls_write_to_file | intros; apply only_calls_stdout_write]. }
  destruct (status_code r =? 403); [|apply only_calls_raise].
  apply only_calls_bind; [apply only_calls_get_access_token | intros token].
  apply only_calls_bind; [apply only_calls_requests_get, P_get | intros r'].
  destruct (status_code r' =? 200); [|apply only_calls_raise].
  apply only_calls_bind;
    [apply only_calls_write_to_file | intros; apply only_calls_stdout_write].
Qed.

Lemma only_calls_upload (bucket : option string) (object_name file_path : json) :
  only_calls P (upload w bucket object_name file_path).
Proof.
  unfold upload.
  apply only_calls_bind; [apply only_calls_stderr_write | intros _].
  apply only_calls_bind; [apply only_calls_get_access_token | intros token].
  apply only_calls_bind; [apply only_calls_open_rb | intros file_data].
  apply only_calls_bind; [apply only_calls_requests_post, P_post | intros r].
  apply only_calls_bind; [apply only_calls_stderr_write | intros _].
  apply only_calls_bind; [|intros; apply only_calls_stderr_write].
  destruct (status_code r =? 200); [|apply only_calls_raise].
  apply only_calls_bind; [apply only_calls_stderr_write | intros _].
  apply only_calls_bind.
  { unfold response_json. destruct (body_json r);
      [apply only_calls_ret | apply only_calls_raise]. }
  intros body.
  apply only_calls_bind; [apply only_calls_stderr_write | intros _].
  apply only_calls_bind; [apply only_calls_getsize | intros size].
  apply only_calls_stdout_write.
Qed.

End Calls.

(** ** The reads of the environment *)

Section Environment.
Context `{lib : PyLib} (w : world).

Lemma eq_str_true (v : json) (s : string) : eq_str v s = true -> v = JStr s.
Proof.
  destruct v; try discriminate. cbn [eq_str]. intros H.
  apply String.eqb_eq in H. congruence.
Qed.

Lemma filter_getenv_none (l : list call) :
  Forall (fun c => is_getenv c = false) l -> List.filter is_getenv l = [].
Proof.
  induction 1 as [|c l Hc _ IH]; [reflexivity|].
  cbn [List.filter]. rewrite Hc. exact IH.
Qed.

(** A transfer made from the state [st1], itself reached from [st] by the
    one read of the bucket, leaves exactly that read in the log. *)
Lemma one_read (m : M unit) (st st1 : state) :
  only_calls (fun c => is_getenv c = false) m ->
  calls st1 = calls st ++ [Getenv "GCS_BUCKET"] ->
  List.filter is_getenv (new_calls st (snd (m st1))) = [Getenv "GCS_BUCKET"].
Proof.
  intros Hm H1. destruct (m st1) as [o st'] eqn:E. cbn [snd].
  destruct (Hm _ _ _ E) as (l & El & Fl).
  rewrite (new_calls_app st st' (Getenv "GCS_BUCKET" :: l)).
  - cbn [List.filter is_getenv]. rewrite (filter_getenv_none l Fl). reflexivity.
  - rewrite El, H1, <- app_assoc. reflexivity.
Qed.

(** C3, as the code has it. The bucket is read by the handlers of the
    transfers: handling an upload or a download event reads
    [GCS_BUCKET] once, handling any other event does not read the
    environment, and a run that meets no event never reads it. *)
Theorem bucket_read_at_each_transfer :
  (forall (d : list (string * json)) (st : state),
     List.filter is_getenv (new_calls st (snd (process_event w (JDict d) st)))
     = if transfer (dict_get d "event") then [Getenv "GCS_BUCKET"] else [])
  /\ (forall fs, calls (snd (main w fs [])) = []).
Proof.
  split; [|reflexivity].
  intros d st.
  destruct (eq_str (dict_get d "event") "init") eqn:Hi.
  { apply eq_str_true in Hi. rewrite (process_event_init w d st Hi), Hi.
    cbn [snd transfer eq_str String.eqb orb].
    rewrite (new_calls_app st _ []); [reflexivity|].
    cbn [calls add_stderr add_stdout]. rewrite app_nil_r. reflexivity. }
  destruct (eq_str (dict_get d "event") "upload") eqn:Hu.
  { unfold transfer. rewrite Hu. cbn [orb].
    apply eq_str_true in Hu. rewrite (process_event_upload w d st Hu).
    apply one_read; [|reflexivity].
    apply only_calls_upload; reflexivity. }
  destruct (eq_str (dict_get d "event") "download") eqn:Hd.
  { unfold transfer. rewrite Hu, Hd. cbn [orb].
    apply eq_str_true in Hd. rewrite (process_event_download w d st Hd).
    apply one_read; [|reflexivity].
    apply only_calls_download; reflexivity. }
  unfold transfer. rewrite Hu, Hd. cbn [orb].
  destruct (eq_str (dict_get d "event") "terminate") eqn:Ht.
  { apply eq_str_true in Ht. rewrite (process_event_terminate w d st Ht).
    cbn [snd]. rewrite (new_calls_app st _ []); [reflexivity|].
    cbn [calls add_stderr add_stdout]. rewrite app_nil_r. reflexivity. }
  rewrite (process_event_unrecognised w d st)
    by (unfold recognised; rewrite Hi, Hu, Hd, Ht; reflexivity).
  cbn [snd]. rewrite (new_calls_app st _ []); [reflexivity|].
  cbn [calls add_stderr]. rewrite app_nil_r. reflexivity.
Qed.

End Environment.

(** ** The end of the loop and of the process *)

Section Termination.
Context `{lib : PyLib} (w : world).


(** C8, as the code has it. A line that is not blank and that
    [json.loads] rejects ends the loop: no later line is read, nothing
    is written to standard output; a [JSONDecodeError] is logged and the
    loop is left by [break], any other error leaves it unhandled. *)
Theorem undecodable_line_ends_loop (line : list byte) (rest : list (list byte))
    (e : exn) (st : state) :
  bytes_strip line <> [] ->
  json_loads (bytes_strip line) = Raise e ->
  exists o st',
    read_loop w (line :: rest) st = (o, st')
    /\ stdout st' = stdout st
    /\ lines_read st' = S (lines_read st)
    /\ match e with
       | JSONDecodeError msg =>
           o = Ret tt
           /\ stderr st' = stderr st ++ ["Error decoding JSON: " +:+ msg +:+ nl]
       | _ => o = Raise e /\ stderr st' = stderr st
       end.
Proof.
  intros Hne Hload.
  assert (Hit : iteration w line st
                = match e with
                  | JSONDecodeError msg =>
                      (Ret Break,
                       add_stderr ("Error decoding JSON: " +:+ msg +:+ nl) (count_line st))
                  | _ => (Raise e, count_line st)
                  end).
  { unfold iteration, try_line. monad_unfold. cbn [take_line].
    destruct (bytes_strip line) as [|b l] eqn:E; [congruence|].
    cbn [length Nat.eqb]. rewrite Hload. destruct e; reflexivity. }
  destruct e;
    try (rewrite (read_loop_raise w line rest st _ _ Hit);
         eexists; eexists; split; [reflexivity|]; repeat split; reflexivity).
  rewrite (read_loop_break w line rest st _ Hit).
  eexists. eexists. split; [reflexivity|]. repeat split; reflexivity.
Qed.

(** C4. Whatever the input and the world, the process exits with
    status 1: a loop that ends without an exception is followed by the
    call of [sys.stderr], which raises. *)
Theorem exit_status_is_one (fs : gmap string (list byte)) (lines : list (list byte)) :
  fst (main w fs lines) = 1.
Proof.
  unfold main, main_body. monad_unfold.
  unfold stderr_write at 1.
  destruct (handle_request w lines _) as [[u|e] st']; reflexivity.
Qed.

End Termination.

(** ** The temporary path *)

Section TemporaryPath.

Lemma join_step_absolute (path b : string) :
  startswith_sep b = true -> join_step path b = b.
Proof. intros H. unfold join_step. rewrite H. reflexivity. Qed.

(** X1. For an object name of three characters or more, none of whose
    first four is the separator, the temporary path is the directory of
    the objects, the first two characters, the next two, and the name. *)
Theorem temporary_path_sharded (oid : string) :
  (3 <= String.length oid)%nat ->
  has_sep (substring 0 4 oid) = false ->
  temporary_path oid
  = objects_dir +:+ substring 0 2 oid +:+ "/" +:+ substring 2 2 oid +:+ "/" +:+ oid.
Proof.
  intros Hlen Hsep.
  destruct oid as [|a [|b [|c s]]]; cbn [String.length] in Hlen; try lia.
  cbn [substring has_sep] in Hsep.
  apply orb_false_elim in Hsep as [Ha Hsep].
  apply orb_false_elim in Hsep as [Hb Hsep].
  apply orb_false_elim in Hsep as [Hc Hsep].
  unfold temporary_path, path_join, objects_dir. cbn [fold_left substring].
  destruct s as [|d s]; cbn [substring has_sep] in Hsep.
  - unfold join_step.
    repeat (simpl; rewrite ?Ha, ?Hb, ?Hc).
    reflexivity.
  - apply orb_false_elim in Hsep as [Hd _].
    cbn [substring].
    replace (substring 0 0 s) with EmptyString by (destruct s; reflexivity).
    unfold join_step.
    repeat (simpl; rewrite ?Ha, ?Hb, ?Hc, ?Hd).
    reflexivity.
Qed.

(** X2. The temporary path lies in the directory of the objects exactly
    when neither the object name nor its third and fourth characters
    start with the separator: a component that starts with it replaces
    the path joined so far. *)
Theorem temporary_path_in_store (oid : string) :
  String.prefix objects_dir (temporary_path oid)
  = negb (startswith_sep oid) && negb (startswith_sep (substring 2 2 oid)).
Proof.
  unfold temporary_path, path_join, objects_dir.
  destruct oid as [|a [|b [|c [|d s]]]]; cbn [fold_left substring];
    try replace (substring 0 0 s) with EmptyString by (destruct s; reflexivity);
    try (destruct (Ascii.eqb a "/") eqn:Ha; [apply Ascii.eqb_eq in Ha; subst a|]);
    try (destruct (Ascii.eqb b "/") eqn:Hb; [apply Ascii.eqb_eq in Hb; subst b|]);
    try (destruct (Ascii.eqb c "/") eqn:Hc; [apply Ascii.eqb_eq in Hc; subst c|]);
    try (destruct (Ascii.eqb d "/") eqn:Hd; [apply Ascii.eqb_eq in Hd; subst d|]);
    unfold join_step;
    repeat (simpl; rewrite ?Ha, ?Hb, ?Hc, ?Hd);
    reflexivity.
Qed.

End TemporaryPath.

(** ** Writing a body *)

Section Writing.
Context `{lib : PyLib} (w : world).

Lemma write_to_file_returns (r : response) (path : json) (st st' : state) :
  _write_to_file w r path st = (Ret tt, st') ->
  exists p, path = JStr p /\ can_write w p = true /\ st' = put_file p (content r) st.
Proof.
  intros H. destruct path as [| | | |p| |];
    try (unfold _write_to_file, open_wb in H; monad_unfold; discriminate).
  destruct (can_write w p) eqn:Hw.
  - rewrite write_to_file_str in H by exact Hw. injection H as <-. eauto.
  - rewrite write_to_file_refused in H by exact Hw. discriminate.
Qed.

Lemma write_to_file_raises (r : response) (path : json) (st st' : state) (e : exn) :
  _write_to_file w r path st = (Raise e, st') -> st' = st.
Proof.
  intros H. destruct path as [| | | |p| |];
    try (unfold _write_to_file, open_wb in H; monad_unfold; injection H as _ <-; reflexivity).
  destruct (can_write w p) eqn:Hw.
  - rewrite write_to_file_str in H by exact Hw. discriminate.
  - rewrite write_to_file_refused in H by exact Hw. injection H as _ <-. reflexivity.
Qed.

Lemma get_access_token_state (st st' : state) (o : outcome string) :
  get_access_token w st = (o, st') -> st' = add_call token_call st.
Proof.
  unfold get_access_token, subprocess_run. monad_unfold. unfold log_call.
  destruct (run_process w (calls st) _) as [t|e].
  - destruct (returncode t =? 0); intros H; injection H as _ <-; reflexivity.
  - intros H; injection H as _ <-; reflexivity.
Qed.

(** X3. A file opened for writing and written chunk by chunk, the empty
    chunks skipped, holds the chunks end to end, whatever it held before
    and however the body is cut; so [_write_to_file] leaves the whole
    body of the response in the file and changes nothing else. *)
Theorem write_to_file_replaces (r : response) (p : string) (st : state) :
  can_write w p = true ->
  (forall chunks : list (list byte),
     (p' ← open_wb w (JStr p); write_chunks p' chunks) st
     = (Ret tt, put_file p (concat chunks) st))
  /\ _write_to_file w r (JStr p) st = (Ret tt, put_file p (content r) st)
  /\ (forall q, q <> p ->
        files (snd (_write_to_file w r (JStr p) st)) !! q = files st !! q).
Proof.
  intros Hw. split; [|split].
  - intros chunks. unfold open_wb. rewrite Hw. monad_unfold. unfold set_file.
    apply (write_chunks_put_file p chunks []).
  - apply write_to_file_str, Hw.
  - intros q Hq. rewrite write_to_file_str by exact Hw. cbn [snd].
    apply files_put_file_other. congruence.
Qed.

End Writing.

(** ** More of the download *)

Section DownloadEvents.
Context `{lib : PyLib} (w : world).

(** The calls of a download, however it ends. *)
Lemma download_new_calls (bucket : option string) (oid path : json) (st : state) :
  exists l,
    calls (snd (download w bucket oid path st)) = calls st ++ l
    /\ (l = [public_get bucket oid]
        \/ l = [public_get bucket oid; token_call]
        \/ exists token,
             l = [public_get bucket oid; token_call;
                  RequestsGet (private_url bucket oid)
                    [("Authorization", "Bearer " +:+ token)]]).
Proof.
  unfold download. monad_unfold. rewrite requests_get_eq.
  fold (public_get bucket oid).
  destruct (http_get w (calls st) _ _) as [r|e];
    [|eexists; split; [reflexivity | left; reflexivity]].
  destruct (get_temporary_path oid) as [tp|e];
    [|eexists; split; [reflexivity | left; reflexivity]].
  destruct (status_code r =? 200).
  { eexists. split; [|left; reflexivity].
    destruct (_write_to_file w r _ _) as [[u|e] st1] eqn:Hwf;
      apply write_to_file_frame in Hwf as (Hc & _);
      cbn [snd calls add_stdout stdout_write]; rewrite Hc; reflexivity. }
  destruct (status_code r =? 403);
    [|eexists; split; [reflexivity | left; reflexivity]].
  destruct (get_access_token w _) as [[token|e] st1] eqn:Ht;
    apply get_access_token_state in Ht; subst st1.
  2:{ eexists. split; [|right; left; reflexivity].
      cbn [snd calls add_call]. rewrite <- app_assoc. reflexivity. }
  eexists. split; [|right; right; exists token; reflexivity].
  rewrite requests_get_eq.
  destruct (http_get w _ _ _) as [r'|e];
    [|cbn [snd calls add_call]; rewrite <- !app_assoc; reflexivity].
  destruct (status_code r' =? 200);
    [|cbn [snd calls add_call]; rewrite <- !app_assoc; reflexivity].
  destruct (_write_to_file w r' _ _) as [[u|e] st1] eqn:Hwf;
    apply write_to_file_frame in Hwf as (Hc & _);
    cbn [snd calls add_stdout stdout_write]; rewrite Hc; cbn [calls add_call];
    rewrite <- !app_assoc; reflexivity.
Qed.

(** X4. A download event reads the bucket and makes the public GET,
    whatever the event carries; what may follow is one fetch of the
    token, and after it one GET with the bearer token. It makes no other
    call: no POST, no second fetch, no third GET. *)
Theorem download_event_calls (d : list (string * json)) (st : state) :
  dict_get d "event" = JStr "download" ->
  let bucket := environ w "GCS_BUCKET" in
  let oid := dict_get d "oid" in
  let l := new_calls st (snd (process_event w (JDict d) st)) in
  l = [Getenv "GCS_BUCKET"; public_get bucket oid]
  \/ l = [Getenv "GCS_BUCKET"; public_get bucket oid; token_call]
  \/ exists token,
       l = [Getenv "GCS_BUCKET"; public_get bucket oid; token_call;
            RequestsGet (private_url bucket oid) [("Authorization", "Bearer " +:+ token)]].
Proof.
  intros He bucket oid. rewrite process_event_download by exact He.
  fold bucket oid. cbv zeta.
  destruct (download_new_calls bucket oid (dict_get d "path") (at_download d st))
    as (l & Hc & Hl).
  rewrite (new_calls_app st _ (Getenv "GCS_BUCKET" :: l)).
  - destruct Hl as [->|[->|(token & ->)]]; [left|right; left|right; right; exists token];
      reflexivity.
  - rewrite Hc. cbn [calls at_download add_stderr add_call].
    rewrite <- app_assoc. reflexivity.
Qed.

(** X5. A download event with no [oid], or with [null] for it: the
    public GET is made, for the object named [None], and then the
    temporary path cannot be computed. The handler raises a [TypeError]
    whatever the answer was; no reply is written and no file is touched. *)
Theorem download_without_oid (d : list (string * json)) (r : response) (st : state) :
  dict_get d "event" = JStr "download" ->
  dict_get d "oid" = JNull ->
  let bucket := environ w "GCS_BUCKET" in
  let url := "https://storage.googleapis.com/" +:+ str_opt bucket
             +:+ "/PIFSC%2FSOD%2Fgit_lfs_test%2FNone" in
  http_get w (calls st ++ [Getenv "GCS_BUCKET"]) url [] = Ret r ->
  exists st',
    process_event w (JDict d) st = (Raise TypeError, st')
    /\ stdout st' = stdout st
    /\ files st' = files st
    /\ new_calls st st' = [Getenv "GCS_BUCKET"; RequestsGet url []].
Proof.
  intros He Ho bucket url H1.
  rewrite process_event_download by exact He. rewrite Ho. fold bucket.
  unfold download. monad_unfold. rewrite requests_get_eq.
  change (public_url bucket JNull) with url.
  cbn [calls at_download add_stderr add_call]. rewrite H1.
  cbn [get_temporary_path].
  eexists. split; [reflexivity|]. repeat split.
  apply new_calls_app. cbn [calls at_download add_stderr add_call].
  rewrite <- app_assoc. reflexivity.
Qed.

(** X6. A download event for an object named by a string, whose public
    GET is answered 200 and whose temporary path can be opened for
    writing: the body is written to the temporary path of the object, no
    other file changes, the reply is [complete] with the [oid] and with
    the [path] of the event as it came (a string or not), the dispatcher
    and the handler log one line each, and neither the token nor the
    authenticated tier is asked. *)
Theorem download_public_writes_temporary (d : list (string * json)) (oid : string)
    (r : response) (st : state) :
  dict_get d "event" = JStr "download" ->
  dict_get d "oid" = JStr oid ->
  let bucket := environ w "GCS_BUCKET" in
  let public := "https://storage.googleapis.com/" +:+ str_opt bucket
                +:+ "/PIFSC%2FSOD%2Fgit_lfs_test%2F" +:+ oid in
  http_get w (calls st ++ [Getenv "GCS_BUCKET"]) public [] = Ret r ->
  status_code r = 200 ->
  can_write w (temporary_path oid) = true ->
  exists st',
    process_event w (JDict d) st = (Ret tt, st')
    /\ stdout st'
       = stdout st
         ++ [json_dumps (JDict [("event", JStr "complete"); ("oid", JStr oid);
                                ("path", dict_get d "path")]) +:+ nl]
    /\ files st' !! temporary_path oid = Some (content r)
    /\ (forall p, p <> temporary_path oid -> files st' !! p = files st !! p)
    /\ stderr st'
       = stderr st
         ++ ["Processing event: download" +:+ nl;
             "Handling download for OID: " +:+ oid +:+ ", Path: "
             +:+ py_str (dict_get d "path") +:+ nl]
    /\ new_calls st st' = [Getenv "GCS_BUCKET"; RequestsGet public []].
Proof.
  intros He Ho bucket public H1 S1 Hw.
  rewrite process_event_download by exact He. rewrite Ho. fold bucket.
  rewrite (download_public_ok w bucket oid (at_download d st) _ r) by assumption.
  eexists. split; [reflexivity|].
  split; [reflexivity|].
  split; [apply files_put_file|].
  split; [|split].
  - intros p Hne. cbn [files add_stdout].
    rewrite files_put_file_other by congruence. reflexivity.
  - cbn [stderr add_stdout put_file add_call at_download add_stderr].
    rewrite He, Ho. cbn [py_str]. rewrite <- app_assoc. reflexivity.
  - apply new_calls_app. cbn [calls add_stdout put_file add_call at_download add_stderr].
    rewrite <- !app_assoc. reflexivity.
Qed.

(** X7. A download event whose public GET is answered 403 and whose
    credential tool ends with a code other than 0: the handler raises the
    error that carries what the tool wrote to its standard error; the
    authenticated GET is not made, no reply is written, no file is
    touched. *)
Theorem download_token_refused (d : list (string * json)) (oid : string)
    (r : response) (t : completed_process) (st : state) :
  dict_get d "event" = JStr "download" ->
  dict_get d "oid" = JStr oid ->
  let bucket := environ w "GCS_BUCKET" in
  let h := calls st ++ [Getenv "GCS_BUCKET"] in
  http_get w h (public_url bucket (JStr oid)) [] = Ret r ->
  status_code r = 403 ->
  run_process w (h ++ [public_get bucket (JStr oid)]) gcloud_args = Ret t ->
  returncode t <> 0 ->
  exists st',
    process_event w (JDict d) st
    = (Raise (RuntimeError ("Error fetching access token: " +:+ proc_stderr t)), st')
    /\ stdout st' = stdout st
    /\ files st' = files st
    /\ new_calls st st' = [Getenv "GCS_BUCKET"; public_get bucket (JStr oid); token_call].
Proof.
  intros He Ho bucket h H1 S1 Ht St.
  rewrite process_event_download by exact He. rewrite Ho. fold bucket.
  rewrite (download_no_token w bucket oid (at_download d st) _ r
             (RuntimeError ("Error fetching access token: " +:+ proc_stderr t)));
    [|assumption|assumption|apply get_access_token_refused; assumption].
  eexists. split; [reflexivity|]. repeat split.
  apply new_calls_app. cbn [calls at_download add_stderr add_call].
  rewrite <- !app_assoc. reflexivity.
Qed.

(** X8. A download whose [path] is no file descriptor and that returns
    has received an answer of status 200 and has put its whole body in
    one file that could be opened for writing, the one at the [path] or
    the one at the temporary path of the [oid], before the one reply it
    wrote, [complete] with the [oid] and the [path] it was given; no
    other file changed. *)
Theorem download_reply_means_stored (bucket : option string) (oid path : json)
    (st st' : state) :
  descriptor path = false ->
  download w bucket oid path st = (Ret tt, st') ->
  exists (p : string) (r : response) (h : list call) (url : string)
         (headers : list (string * string)),
    http_get w h url headers = Ret r
    /\ status_code r = 200
    /\ can_write w p = true
    /\ (path = JStr p \/ exists o, oid = JStr o /\ p = temporary_path o)
    /\ files st' = <[p := content r]> (files st)
    /\ stdout st'
       = stdout st
         ++ [json_dumps (JDict [("event", JStr "complete"); ("oid", oid);
                                ("path", path)]) +:+ nl].
Proof.
  intros _. unfold download. monad_unfold. rewrite requests_get_eq.
  destruct (http_get w (calls st) _ _) as [r|e] eqn:H1; [|discriminate].
  destruct oid as [| | | |o| |]; cbn [get_temporary_path]; try discriminate.
  destruct (status_code r =? 200) eqn:S1.
  { destruct (_write_to_file w r _ _) as [[u|e] st1] eqn:Hwf; [|discriminate].
    destruct u. apply write_to_file_returns in Hwf as (p & Hp & Hw & ->).
    intros H. injection H as <-. injection Hp as <-.
    exists (temporary_path o), r, (calls st), (public_url bucket (JStr o)), [].
    apply Z.eqb_eq in S1.
    split; [exact H1|]. split; [exact S1|]. split; [exact Hw|].
    split; [right; exists o; split; reflexivity|]. split; reflexivity. }
  destruct (status_code r =? 403); [|discriminate].
  destruct (get_access_token w _) as [[token|e] st1] eqn:Ht; [|discriminate].
  apply get_access_token_state in Ht. subst st1.
  rewrite requests_get_eq.
  destruct (http_get w _ (private_url bucket (JStr o)) _) as [r'|e] eqn:H2; [|discriminate].
  destruct (status_code r' =? 200) eqn:S2; [|discriminate].
  destruct (_write_to_file w r' _ _) as [[u|e] st1] eqn:Hwf; [|discriminate].
  destruct u. apply write_to_file_returns in Hwf as (p & Hp & Hw & ->).
  intros H. injection H as <-.
  eexists p, r', _, _, _.
  apply Z.eqb_eq in S2. split; [exact H2|]. split; [exact S2|]. split; [exact Hw|].
  split; [left; exact Hp|]. split; reflexivity.
Qed.

(** X9. A download event that carries no string for [path], refused by
    the public tier and answered 200 by the authenticated one: the body
    is fetched, and then the file cannot be opened. The handler raises a
    [TypeError], no reply is written, no file is touched. (Answered 200
    by the public tier, the same event is replied to: the path is not
    used there.) *)
Theorem download_private_without_path (d : list (string * json)) (oid : string)
    (r r' : response) (t : completed_process) (st : state) :
  dict_get d "event" = JStr "download" ->
  dict_get d "oid" = JStr oid ->
  dict_get d "path" = JNull ->
  let bucket := environ w "GCS_BUCKET" in
  let h := calls st ++ [Getenv "GCS_BUCKET"] in
  http_get w h (public_url bucket (JStr oid)) [] = Ret r ->
  status_code r = 403 ->
  run_process w (h ++ [public_get bucket (JStr oid)]) gcloud_args = Ret t ->
  returncode t = 0 ->
  http_get w ((h ++ [public_get bucket (JStr oid)]) ++ [token_call])
    (private_url bucket (JStr oid)) (bearer t) = Ret r' ->
  status_code r' = 200 ->
  exists st',
    process_event w (JDict d) st = (Raise TypeError, st')
    /\ stdout st' = stdout st
    /\ files st' = files st
    /\ new_calls st st' = [Getenv "GCS_BUCKET"; public_get bucket (JStr oid);
                           token_call; private_get bucket (JStr oid) t].
Proof.
  intros He Ho Hp bucket h H1 S1 Ht St H2 S2.
  rewrite process_event_download by exact He. rewrite Ho, Hp. fold bucket.
  rewrite (download_private_step w bucket oid (at_download d st) r t) by assumption.
  cbn [calls at_download add_stderr add_call]. fold h. rewrite H2, S2.
  cbn [Z.eqb Pos.eqb].
  eexists. split; [reflexivity|]. repeat split.
  apply new_calls_app. cbn [calls at_download add_stderr add_call].
  rewrite <- !app_assoc. reflexivity.
Qed.

End DownloadEvents.

(** ** More of the upload *)

Section UploadEvents.
Context `{lib : PyLib} (w : world).

(** The calls of an upload, however it ends. *)
Lemma upload_new_calls (bucket : option string) (oid path : json) (st : state) :
  exists l,
    calls (snd (upload w bucket oid path st)) = calls st ++ l
    /\ (l = [token_call]
        \/ exists (token p : string) (data : list byte),
             path = JStr p
             /\ files st !! p = Some data
             /\ l = [token_call;
                     RequestsPost (upload_url bucket oid)
                       [("Content-Type", "application/octet-stream");
                        ("Authorization", "Bearer " +:+ token)] data]).
Proof.
  unfold upload. monad_unfold. unfold stderr_write at 1.
  destruct (get_access_token w _) as [[token|e] st1] eqn:Ht;
    apply get_access_token_state in Ht; subst st1;
    [|eexists; split; [reflexivity | left; reflexivity]].
  destruct path as [| | | |p| |];
    try (eexists; split; [reflexivity | left; reflexivity]).
  unfold open_rb. cbn [files add_call add_stderr].
  destruct (files st !! p) as [data|] eqn:Hf;
    [|eexists; split; [reflexivity | left; reflexivity]].
  eexists. split; [|right; exists token, p, data; split; [reflexivity|]; split;
                     [exact Hf | reflexivity]].
  rewrite requests_post_eq.
  destruct (http_post w _ _ _ _) as [r|e];
    [|cbn [snd calls add_call add_stderr]; rewrite <- app_assoc; reflexivity].
  unfold stderr_write at 1.
  destruct (status_code r =? 200).
  2:{ cbn [snd calls add_call add_stderr]. rewrite <- app_assoc; reflexivity. }
  unfold stderr_write at 1. unfold response_json.
  destruct (body_json r) as [v|msg]; monad_unfold;
    [|cbn [snd calls add_call add_stderr]; rewrite <- app_assoc; reflexivity].
  unfold stderr_write at 1. unfold getsize.
  cbn [files add_call add_stderr]. rewrite Hf.
  cbn [snd calls add_call add_stderr add_stdout stdout_write stderr_write].
  rewrite <- app_assoc. reflexivity.
Qed.

(** X10. An upload event whose [path] is no file descriptor fetches the
    token after it has read the bucket, and makes at most one more call:
    the POST, to the upload URL of the object, of the bytes the file at
    the event's [path] holds, with the bearer token. It never makes a
    GET, and posts nothing when the file cannot be read. *)
Theorem upload_event_calls (d : list (string * json)) (st : state) :
  dict_get d "event" = JStr "upload" ->
  descriptor (dict_get d "path") = false ->
  let bucket := environ w "GCS_BUCKET" in
  let oid := dict_get d "oid" in
  let url := "https://storage.googleapis.com/upload/storage/v1/b/" +:+ str_opt bucket
             +:+ "/o?uploadType=media&name=PIFSC%2FSOD%2Fgit_lfs_test%2F" +:+ py_str oid in
  let gcloud := ["gcloud"; "auth"; "print-access-token"] in
  let l := new_calls st (snd (process_event w (JDict d) st)) in
  l = [Getenv "GCS_BUCKET"; SubprocessRun gcloud]
  \/ exists (token p : string) (data : list byte),
       dict_get d "path" = JStr p
       /\ files st !! p = Some data
       /\ l = [Getenv "GCS_BUCKET"; SubprocessRun gcloud;
               RequestsPost url
                 [("Content-Type", "application/octet-stream");
                  ("Authorization", "Bearer " +:+ token)] data].
Proof.
  intros He _ bucket oid url gcloud. rewrite process_event_upload by exact He.
  fold bucket oid. cbv zeta.
  destruct (upload_new_calls bucket oid (dict_get d "path") (at_upload d st))
    as (l & Hc & Hl).
  rewrite (new_calls_app st _ (Getenv "GCS_BUCKET" :: l)).
  - destruct Hl as [->|(token & p & data & Hp & Hf & ->)]; [left; reflexivity|].
    right. exists token, p, data. repeat split; assumption.
  - rewrite Hc. cbn [calls at_upload add_stderr add_call].
    rewrite <- app_assoc. reflexivity.
Qed.

(** X11. An upload event whose credential tool ends with a code other
    than 0: the handler raises the error that carries what the tool wrote
    to its standard error, before the file is opened; nothing is posted
    and no reply is written, whether the file is there or not. *)
Theorem upload_token_refused (d : list (string * json)) (t : completed_process)
    (st : state) :
  dict_get d "event" = JStr "upload" ->
  run_process w (calls st ++ [Getenv "GCS_BUCKET"]) gcloud_args = Ret t ->
  returncode t <> 0 ->
  exists st',
    process_event w (JDict d) st
    = (Raise (RuntimeError ("Error fetching access token: " +:+ proc_stderr t)), st')
    /\ stdout st' = stdout st
    /\ files st' = files st
    /\ new_calls st st' = [Getenv "GCS_BUCKET"; token_call].
Proof.
  intros He Ht St. rewrite process_event_upload by exact He.
  unfold upload. monad_unfold. unfold stderr_write at 1.
  rewrite (get_access_token_refused w t) by assumption.
  eexists. split; [reflexivity|]. repeat split.
  apply new_calls_app. cbn [calls at_upload add_stderr add_call].
  rewrite <- app_assoc. reflexivity.
Qed.

(** X12. An upload event whose [path] is a string that names no file:
    the token is fetched first, then the open fails, with [ValueError]
    when the path holds the NUL character and with [OSError] otherwise;
    nothing is posted and no reply is written. *)
Theorem upload_missing_file (d : list (string * json)) (path : string)
    (t : completed_process) (st : state) :
  dict_get d "event" = JStr "upload" ->
  dict_get d "path" = JStr path ->
  files st !! path = None ->
  run_process w (calls st ++ [Getenv "GCS_BUCKET"]) gcloud_args = Ret t ->
  returncode t = 0 ->
  exists st',
    process_event w (JDict d) st
    = (Raise (if has_nul path then ValueError else OSError), st')
    /\ stdout st' = stdout st
    /\ files st' = files st
    /\ new_calls st st' = [Getenv "GCS_BUCKET"; token_call].
Proof.
  intros He Hp Hf Ht St. rewrite process_event_upload by exact He. rewrite Hp.
  unfold upload. monad_unfold. unfold stderr_write at 1.
  rewrite (get_access_token_ok w t) by assumption.
  unfold open_rb. cbn [files at_upload add_call add_stderr]. rewrite Hf.
  unfold path_error.
  eexists. split; [reflexivity|]. repeat split.
  apply new_calls_app. cbn [calls at_upload add_stderr add_call].
  rewrite <- app_assoc. reflexivity.
Qed.

(** X13. A line that carries an upload event whose POST is answered by a
    status other than 200 ends the agent: the error that carries the
    status and the text of the answer leaves the read loop unhandled, no
    reply is written, and the lines after it are not read. *)
Theorem upload_refused_ends_loop (line : list byte) (rest : list (list byte))
    (d : list (string * json)) (path : string) (t : completed_process)
    (data : list byte) (r : response) (st : state) :
  bytes_strip line <> [] ->
  json_loads (bytes_strip line) = Ret (JDict d) ->
  dict_get d "event" = JStr "upload" ->
  dict_get d "path" = JStr path ->
  let bucket := environ w "GCS_BUCKET" in
  let oid := dict_get d "oid" in
  let h := calls st ++ [Getenv "GCS_BUCKET"] in
  run_process w h gcloud_args = Ret t ->
  returncode t = 0 ->
  files st !! path = Some data ->
  http_post w (h ++ [token_call]) (upload_url bucket oid) (upload_headers t) data = Ret r ->
  status_code r <> 200 ->
  exists st',
    read_loop w (line :: rest) st = (Raise (upload_error r), st')
    /\ stdout st' = stdout st
    /\ files st' = files st
    /\ lines_read st' = S (lines_read st)
    /\ new_calls st st' = [Getenv "GCS_BUCKET"; token_call; upload_post bucket oid t data].
Proof.
  intros Hne Hload He Hp bucket oid h Ht St Hf Hpost S200.
  pose proof (iteration_decoded w line (JDict d) st Hne Hload) as Hit.
  rewrite process_event_upload in Hit by exact He. rewrite Hp in Hit.
  rewrite (upload_step w bucket oid path (at_upload d (count_line st)) t data r)
    in Hit by assumption.
  apply Z.eqb_neq in S200. rewrite S200 in Hit. unfold upload_error in Hit.
  rewrite (read_loop_raise w line rest st _ _ Hit).
  eexists. split; [reflexivity|]. repeat split.
  apply new_calls_app.
  cbn [calls add_stdout add_call add_stderr at_upload answered count_line].
  rewrite <- !app_assoc. reflexivity.
Qed.

(** X14. A line that carries an upload event whose POST is answered 200
    with a body that is not JSON: the file has been posted, the error of
    [response.json()] is caught by the read loop as if the line were not
    JSON, and the loop ends by [break] with the decoding error as its
    last log, no reply written and the lines after it not read. *)
Theorem upload_plain_answer_ends_loop (line : list byte) (rest : list (list byte))
    (d : list (string * json)) (path : string) (t : completed_process)
    (data : list byte) (r : response) (msg : string) (st : state) :
  bytes_strip line <> [] ->
  json_loads (bytes_strip line) = Ret (JDict d) ->
  dict_get d "event" = JStr "upload" ->
  dict_get d "path" = JStr path ->
  let bucket := environ w "GCS_BUCKET" in
  let oid := dict_get d "oid" in
  let h := calls st ++ [Getenv "GCS_BUCKET"] in
  run_process w h gcloud_args = Ret t ->
  returncode t = 0 ->
  files st !! path = Some data ->
  http_post w (h ++ [token_call]) (upload_url bucket oid) (upload_headers t) data = Ret r ->
  status_code r = 200 ->
  body_json r = Undecodable msg ->
  exists st',
    read_loop w (line :: rest) st = (Ret tt, st')
    /\ stdout st' = stdout st
    /\ last (stderr st') = Some ("Error decoding JSON: " +:+ msg +:+ nl)
    /\ lines_read st' = S (lines_read st)
    /\ new_calls st st' = [Getenv "GCS_BUCKET"; token_call; upload_post bucket oid t data].
Proof.
  intros Hne Hload He Hp bucket oid h Ht St Hf Hpost S200 Hj.
  pose proof (iteration_decoded w line (JDict d) st Hne Hload) as Hit.
  rewrite process_event_upload in Hit by exact He. rewrite Hp in Hit.
  rewrite (upload_step w bucket oid path (at_upload d (count_line st)) t data r)
    in Hit by assumption.
  rewrite S200, Hj in Hit. cbn [Z.eqb Pos.eqb] in Hit.
  rewrite (read_loop_break w line rest st _ Hit).
  eexists. split; [reflexivity|].
  split; [reflexivity|].
  split; [cbn [stderr add_stderr]; apply last_snoc|].
  split; [reflexivity|].
  apply new_calls_app.
  cbn [calls add_stdout add_call add_stderr at_upload answered count_line].
  rewrite <- !app_assoc. reflexivity.
Qed.

End UploadEvents.

(** ** One reply for an event *)

Section Replies.
Context `{lib : PyLib} (w : world).

Lemma silent_ret {A} (a : A) : silent (mret a).
Proof. intros st o st' E. injection E as _ <-. split; reflexivity. Qed.

Lemma silent_raise {A} (e : exn) : silent (raise e : M A).
Proof. intros st o st' E. injection E as _ <-. split; reflexivity. Qed.

Lemma silent_lift {A} (o : outcome A) : silent (lift o).
Proof. intros st o' st' E. injection E as _ <-. split; reflexivity. Qed.

Lemma silent_stderr_write (s : string) : silent (stderr_write s).
Proof. intros st o st' E. injection E as _ <-. split; reflexivity. Qed.

Lemma silent_bind {A B} (m : M A) (k : A -> M B) :
  silent m -> (forall a, silent (k a)) -> silent (m ≫= k).
Proof.
  intros Hm Hk st o st' E. monad_unfold.
  destruct (m st) as [[a|e] st1] eqn:Em.
  - destruct (Hm _ _ _ Em) as [E1 L1]. destruct (Hk a _ _ _ E) as [E2 L2].
    split; congruence.
  - injection E as _ <-. exact (Hm _ _ _ Em).
Qed.

Lemma silent_os_getenv (name : string) : silent (os_getenv w name).
Proof. intros st o st' E. injection E as _ <-. split; reflexivity. Qed.

Lemma silent_requests_get (url : string) (headers : list (string * string)) :
  silent (requests_get w url headers).
Proof.
  intros st o st' E. rewrite requests_get_eq in E. injection E as _ <-.
  split; reflexivity.
Qed.

Lemma silent_requests_post (url : string) (headers : list (string * string))
    (data : list byte) :
  silent (requests_post w url headers data).
Proof.
  intros st o st' E. rewrite requests_post_eq in E. injection E as _ <-.
  split; reflexivity.
Qed.

Lemma silent_get_access_token : silent (get_access_token w).
Proof.
  intros st o st' E. apply get_access_token_state in E. subst st'.
  split; reflexivity.
Qed.

Lemma silent_open_rb (path : json) : silent (open_rb path).
Proof.
  destruct path; try apply silent_raise.
  intros st o st' E. unfold open_rb in E.
  destruct (files st !! s); injection E as _ <-; split; reflexivity.
Qed.

Lemma silent_getsize (path : json) : silent (getsize path).
Proof.
  destruct path; try apply silent_raise.
  intros st o st' E. unfold getsize in E.
  destruct (files st !! s); injection E as _ <-; split; reflexivity.
Qed.

Lemma silent_response_json (r : response) : silent (response_json r).
Proof.
  unfold response_json. destruct (body_json r); [apply silent_ret | apply silent_raise].
Qed.

Lemma silent_write_to_file (r : response) (path : json) :
  silent (_write_to_file w r path).
Proof.
  intros st o st' E. destruct o as [[]|e].
  - apply write_to_file_returns in E as (p & _ & _ & ->). split; reflexivity.
  - apply write_to_file_raises in E. subst st'. split; reflexivity.
Qed.

Lemma replies_raise {A} (Q : json -> Prop) (e : exn) : replies Q (raise e : M A).
Proof. intros st o st' E. injection E as <- <-. split; reflexivity. Qed.

Lemma replies_stdout_write (Q : json -> Prop) (v : json) :
  Q v -> replies Q (stdout_write (json_dumps v +:+ nl)).
Proof.
  intros HQ st o st' E. injection E as <- <-. split; [reflexivity|].
  exists v. split; [exact HQ | reflexivity].
Qed.

Lemma replies_bind {A B} (Q : json -> Prop) (m : M A) (k : A -> M B) :
  silent m -> (forall a, replies Q (k a)) -> replies Q (m ≫= k).
Proof.
  intros Hm Hk st o st' E. monad_unfold.
  destruct (m st) as [[a|e] st1] eqn:Em; destruct (Hm _ _ _ Em) as [E1 L1].
  - destruct (Hk a _ _ _ E) as [L2 E2]. rewrite <- E1, <- L1. split; assumption.
  - injection E as <- <-. split; assumption.
Qed.

Lemma replies_then_stderr {A} (Q : json -> Prop) (m : M A) (s : string) :
  replies Q m -> replies Q (m ≫= fun _ => stderr_write s).
Proof.
  intros Hm st o st' E. monad_unfold.
  destruct (m st) as [[a|e] st1] eqn:Em; destruct (Hm _ _ _ Em) as [L1 E1].
  - injection E as <- <-. split; assumption.
  - injection E as <- <-. split; assumption.
Qed.

Lemma replies_download (Q : json -> Prop) (bucket : option string) (oid path : json) :
  Q (complete_download oid path) -> replies Q (download w bucket oid path).
Proof.
  intros HQ. unfold download.
  apply replies_bind; [apply silent_requests_get | intros r].
  apply replies_bind; [apply silent_lift | intros tp].
  destruct (status_code r =? 200).
  { apply replies_bind; [apply silent_write_to_file | intros _].
    apply replies_stdout_write, HQ. }
  destruct (status_code r =? 403); [|apply replies_raise].
  apply replies_bind; [apply silent_get_access_token | intros token].
  apply replies_bind; [apply silent_requests_get | intros r'].
  destruct (status_code r' =? 200); [|apply replies_raise].
  apply replies_bind; [apply silent_write_to_file | intros _].
  apply replies_stdout_write, HQ.
Qed.

Lemma replies_upload (Q : json -> Prop) (bucket : option string) (oid path : json) :
  (forall size, Q (complete_upload oid size)) -> replies Q (upload w bucket oid path).
Proof.
  intros HQ. unfold upload.
  apply replies_bind; [apply silent_stderr_write | intros _].
  apply replies_bind; [apply silent_get_access_token | intros token].
  apply replies_bind; [apply silent_open_rb | intros file_data].
  apply replies_bind; [apply silent_requests_post | intros r].
  apply replies_bind; [apply silent_stderr_write | intros _].
  apply replies_then_stderr.
  destruct (status_code r =? 200); [|apply replies_raise].
  apply replies_bind; [apply silent_stderr_write | intros _].
  apply replies_bind; [apply silent_response_json | intros body].
  apply replies_bind; [apply silent_stderr_write | intros _].
  apply replies_bind; [apply silent_getsize | intros size].
  apply replies_stdout_write, HQ.
Qed.

(** The dispatcher on an event it knows. *)
Lemma replies_process_event (d : list (string * json)) :
  recognised (dict_get d "event") = true ->
  replies (answers d) (process_event w (JDict d)).
Proof.
  intros Hrec st o st' E.
  destruct (eq_str (dict_get d "event") "init") eqn:Hi.
  { apply eq_str_true in Hi. rewrite (process_event_init w d st Hi) in E.
    injection E as <- <-. split; [reflexivity|].
    eexists. split; [|reflexivity]. unfold answers. rewrite Hi.
    split; [reflexivity | discriminate]. }
  destruct (eq_str (dict_get d "event") "upload") eqn:Hu.
  { apply eq_str_true in Hu. rewrite (process_event_upload w d st Hu) in E.
    apply (replies_upload (answers d)) in E.
    - destruct E as [L E]. split; [exact L|].
      destruct o; exact E.
    - intros size. unfold answers. rewrite Hu. split; reflexivity. }
  destruct (eq_str (dict_get d "event") "download") eqn:Hd.
  { apply eq_str_true in Hd. rewrite (process_event_download w d st Hd) in E.
    apply (replies_download (answers d)) in E.
    - destruct E as [L E]. split; [exact L|].
      destruct o; exact E.
    - unfold answers. rewrite Hd. split; reflexivity. }
  destruct (eq_str (dict_get d "event") "terminate") eqn:Ht.
  { apply eq_str_true in Ht. rewrite (process_event_terminate w d st Ht) in E.
    injection E as <- <-. split; [reflexivity|].
    eexists. split; [|reflexivity]. unfold answers. rewrite Ht.
    split; [reflexivity | discriminate]. }
  unfold recognised in Hrec. rewrite Hi, Hu, Hd, Ht in Hrec. discriminate.
Qed.

(** X15. The one reply. Handling a decoded object whose [path] is no
    file descriptor and whose event is one of [init], [upload],
    [download], [terminate] writes exactly one line to standard output
    when the handler returns: the reply named [init], [terminate] or,
    for a transfer, [complete] with the [oid] of the event. When the
    handler raises, and for any other event, nothing is written to
    standard output. *)
Theorem one_reply_per_event (d : list (string * json)) (st : state) :
  descriptor (dict_get d "path") = false ->
  let r := process_event w (JDict d) st in
  match fst r with
  | Ret _ =>
      if recognised (dict_get d "event")
      then exists v, answers d v /\ stdout (snd r) = stdout st ++ [json_dumps v +:+ nl]
      else stdout (snd r) = stdout st
  | Raise _ => stdout (snd r) = stdout st
  end.
Proof.
  intros _. cbv zeta. destruct (recognised (dict_get d "event")) eqn:Hrec.
  - destruct (process_event w (JDict d) st) as [o st'] eqn:E.
    apply (replies_process_event d Hrec) in E as [_ E].
    destruct o; exact E.
  - rewrite (process_event_unrecognised w d st Hrec). reflexivity.
Qed.

(** What a round of the dispatcher and of the loop adds to standard
    output: at most one line. *)
Lemma process_event_stdout (payload : json) (st st' : state) (o : outcome unit) :
  process_event w payload st = (o, st') ->
  lines_read st' = lines_read st
  /\ exists l, stdout st' = stdout st ++ l /\ (length l <= 1)%nat.
Proof.
  intros E.
  destruct payload as [| | | | | |d];
    try (injection E as _ <-; split; [reflexivity|]; exists [];
         rewrite app_nil_r; split; [reflexivity | cbn; lia]).
  destruct (recognised (dict_get d "event")) eqn:Hrec.
  - apply (replies_process_event d Hrec) in E as [L E]. split; [exact L|].
    destruct o as [u|e].
    + destruct E as (v & _ & E). exists [reply_line v]. split; [exact E | cbn; lia].
    + exists []. rewrite app_nil_r. split; [exact E | cbn; lia].
  - rewrite (process_event_unrecognised w d st Hrec) in E. injection E as _ <-.
    split; [reflexivity|]. exists []. rewrite app_nil_r.
    split; [reflexivity | cbn; lia].
Qed.

Lemma iteration_stdout (line : list byte) (st st' : state) (o : outcome flow) :
  iteration w line st = (o, st') ->
  lines_read st' = S (lines_read st)
  /\ exists l, stdout st' = stdout st ++ l /\ (length l <= 1)%nat.
Proof.
  unfold iteration, try_line. monad_unfold. cbn [take_line].
  destruct (length (bytes_strip line) =? 0)%nat.
  { intros E. injection E as _ <-. split; [reflexivity|]. exists [].
    rewrite app_nil_r. split; [reflexivity | cbn; lia]. }
  destruct (json_loads (bytes_strip line)) as [payload|e].
  - destruct (process_event w payload (count_line st)) as [[u|e] st1] eqn:Ep;
      apply process_event_stdout in Ep as (L & l & El & Hl).
    + intros E. injection E as _ <-. split; [exact L|]. exists l. auto.
    + destruct e; intros E; injection E as _ <-;
        (split; [exact L|]; exists l; auto).
  - destruct e; intros E; injection E as _ <-;
      (split; [reflexivity|]; exists []; rewrite app_nil_r;
       split; [reflexivity | cbn; lia]).
Qed.

Lemma read_loop_stdout (lines : list (list byte)) (st : state) :
  let st' := snd (read_loop w lines st) in
  (lines_read st <= lines_read st')%nat
  /\ (lines_read st' <= lines_read st + length lines)%nat
  /\ exists l, stdout st' = stdout st ++ l
               /\ (length l <= lines_read st' - lines_read st)%nat.
Proof.
  cbv zeta. revert st. induction lines as [|line rest IH]; intros st.
  - cbn. split; [lia|]. split; [lia|]. exists []. rewrite app_nil_r.
    split; [reflexivity | cbn; lia].
  - cbn [read_loop]. monad_unfold.
    destruct (iteration w line st) as [[f|e] st1] eqn:Ei;
      apply iteration_stdout in Ei as (L & l & El & Hl).
    + destruct f.
      * destruct (IH st1) as (H1 & H2 & l2 & El2 & Hl2).
        cbn [length]. split; [lia|]. split; [lia|].
        exists (l ++ l2). split.
        -- rewrite El2, El, app_assoc. reflexivity.
        -- rewrite length_app. lia.
      * cbn [snd length]. split; [lia|]. split; [lia|].
        exists l. split; [exact El | lia].
    + cbn [snd length]. split; [lia|]. split; [lia|].
      exists l. split; [exact El | lia].
Qed.

Lemma async_for_stdout (lines : list (list byte)) (st : state) :
  let st' := snd (async_for w lines st) in
  (lines_read st <= lines_read st')%nat
  /\ (lines_read st' <= lines_read st + length lines)%nat
  /\ exists l, stdout st' = stdout st ++ l
               /\ (length l <= lines_read st' - lines_read st)%nat.
Proof.
  cbv zeta. revert st. induction lines as [|line rest IH]; intros st.
  - cbn. split; [lia|]. split; [lia|]. exists []. rewrite app_nil_r.
    split; [reflexivity | cbn; lia].
  - cbn [async_for]. monad_unfold. destruct (within_limit line).
    2:{ cbn [snd length]. split; [lia|]. split; [lia|]. exists [].
        rewrite app_nil_r. split; [reflexivity | cbn; lia]. }
    destruct (iteration w line st) as [[f|e] st1] eqn:Ei;
      apply iteration_stdout in Ei as (L & l & El & Hl).
    + destruct f.
      * destruct (IH st1) as (H1 & H2 & l2 & El2 & Hl2).
        cbn [length]. split; [lia|]. split; [lia|].
        exists (l ++ l2). split.
        -- rewrite El2, El, app_assoc. reflexivity.
        -- rewrite length_app. lia.
      * cbn [snd length]. split; [lia|]. split; [lia|].
        exists l. split; [exact El | lia].
    + cbn [snd length]. split; [lia|]. split; [lia|].
      exists l. split; [exact El | lia].
Qed.

(** X16. On an input none of whose events carries a file descriptor for
    [path], and in any world, the agent has written at most as many
    lines to standard output as it has read lines from the input when
    it ends, and it has read no more lines than the input holds. *)
Theorem replies_bounded_by_lines (fs : gmap string (list byte)) (lines : list (list byte)) :
  forallb names_no_descriptor lines = true ->
  let st' := snd (main w fs lines) in
  (length (stdout st') <= lines_read st')%nat
  /\ (lines_read st' <= length lines)%nat.
Proof.
  intros _. cbv zeta.
  assert (Hm : snd (main w fs lines)
               = snd (async_for w lines
                        (add_stderr ("Transfer agent started" +:+ nl)
                           (add_stderr ("Transferring" +:+ nl) (initial_state fs))))).
  { unfold main, main_body, handle_request, sys_stderr_call. monad_unfold.
    unfold stderr_write. cbn beta iota zeta.
    destruct (async_for w lines _) as [[u|e] st1]; reflexivity. }
  rewrite Hm.
  destruct (async_for_stdout lines
              (add_stderr ("Transfer agent started" +:+ nl)
                 (add_stderr ("Transferring" +:+ nl) (initial_state fs))))
    as (_ & H2 & l & El & Hl).
  cbn [stdout lines_read add_stderr initial_state app] in *.
  rewrite El. split; lia.
Qed.

End Replies.

(** ** Which files a computation writes *)

Section Files.
Context `{lib : PyLib} (w : world).
Variable allowed : string -> Prop.

Lemma only_files_same {A} (m : M A) :
  (forall st o st', m st = (o, st') -> files st' = files st) ->
  only_files allowed m.
Proof. intros H st o st' E p _. rewrite (H _ _ _ E). reflexivity. Qed.

Lemma only_files_ret {A} (a : A) : only_files allowed (mret a).
Proof. apply only_files_same. intros st o st' E. injection E as _ <-. reflexivity. Qed.

Lemma only_files_raise {A} (e : exn) : only_files allowed (raise e : M A).
Proof. apply only_files_same. intros st o st' E. injection E as _ <-. reflexivity. Qed.

Lemma only_files_lift {A} (o : outcome A) : only_files allowed (lift o).
Proof. apply only_files_same. intros st o' st' E. injection E as _ <-. reflexivity. Qed.

Lemma only_files_stdout_write (s : string) : only_files allowed (stdout_write s).
Proof. apply only_files_same. intros st o st' E. injection E as _ <-. reflexivity. Qed.

Lemma only_files_stderr_write (s : string) : only_files allowed (stderr_write s).
Proof. apply only_files_same. intros st o st' E. injection E as _ <-. reflexivity. Qed.

Lemma only_files_bind {A B} (m : M A) (k : A -> M B) :
  only_files allowed m -> (forall a, only_files allowed (k a)) -> only_files allowed (m ≫= k).
Proof.
  intros Hm Hk st o st' E p Hp. monad_unfold.
  destruct (m st) as [[a|e] st1] eqn:Em.
  - rewrite (Hk a _ _ _ E p Hp). exact (Hm _ _ _ Em p Hp).
  - injection E as _ <-. exact (Hm _ _ _ Em p Hp).
Qed.

Lemma only_files_os_getenv (name : string) : only_files allowed (os_getenv w name).
Proof. apply only_files_same. intros st o st' E. injection E as _ <-. reflexivity. Qed.

Lemma only_files_requests_get (url : string) (headers : list (string * string)) :
  only_files allowed (requests_get w url headers).
Proof.
  apply only_files_same. intros st o st' E. rewrite requests_get_eq in E.
  injection E as _ <-. reflexivity.
Qed.

Lemma only_files_requests_post (url : string) (headers : list (string * string))
    (data : list byte) :
  only_files allowed (requests_post w url headers data).
Proof.
  apply only_files_same. intros st o st' E. rewrite requests_post_eq in E.
  injection E as _ <-. reflexivity.
Qed.

Lemma only_files_get_access_token : only_files allowed (get_access_token w).
Proof.
  apply only_files_same. intros st o st' E. apply get_access_token_state in E.
  subst st'. reflexivity.
Qed.

Lemma only_files_open_rb (path : json) : only_files allowed (open_rb path).
Proof.
  destruct path; try apply only_files_raise.
  apply only_files_same. intros st o st' E. unfold open_rb in E.
  destruct (files st !! s); injection E as _ <-; reflexivity.
Qed.

Lemma only_files_getsize (path : json) : only_files allowed (getsize path).
Proof.
  destruct path; try apply only_files_raise.
  apply only_files_same. intros st o st' E. unfold getsize in E.
  destruct (files st !! s); injection E as _ <-; reflexivity.
Qed.

Lemma only_files_response_json (r : response) : only_files allowed (response_json r).
Proof.
  unfold response_json.
  destruct (body_json r); [apply only_files_ret | apply only_files_raise].
Qed.

Lemma only_files_write_to_file (r : response) (path : json) :
  (forall p, path = JStr p -> allowed p) -> only_files allowed (_write_to_file w r path).
Proof.
  intros HS st o st' E q Hq. destruct o as [[]|e].
  - apply write_to_file_returns in E as (p & Hp & _ & ->).
    apply files_put_file_other. intros ->. apply Hq, HS, Hp.
  - apply write_to_file_raises in E. subst st'. reflexivity.
Qed.

Lemma only_files_upload (bucket : option string) (oid path : json) :
  only_files allowed (upload w bucket oid path).
Proof.
  unfold upload.
  apply only_files_bind; [apply only_files_stderr_write | intros _].
  apply only_files_bind; [apply only_files_get_access_token | intros token].
  apply only_files_bind; [apply only_files_open_rb | intros file_data].
  apply only_files_bind; [apply only_files_requests_post | intros r].
  apply only_files_bind; [apply only_files_stderr_write | intros _].
  apply only_files_bind; [|intros; apply only_files_stderr_write].
  destruct (status_code r =? 200); [|apply only_files_raise].
  apply only_files_bind; [apply only_files_stderr_write | intros _].
  apply only_files_bind; [apply only_files_response_json | intros body].
  apply only_files_bind; [apply only_files_stderr_write | intros _].
  apply only_files_bind; [apply only_files_getsize | intros size].
  apply only_files_stdout_write.
Qed.

Lemma only_files_bind_ret {A B} (a : A) (k : A -> M B) :
  only_files allowed (k a) -> only_files allowed (lift (Ret a) ≫= k).
Proof. intros H st o st' E. exact (H st o st' E). Qed.

Lemma only_files_download (bucket : option string) (oid path : json) :
  (forall p, path = JStr p -> allowed p) ->
  (forall o, oid = JStr o -> allowed (temporary_path o)) ->
  only_files allowed (download w bucket oid path).
Proof.
  intros Hpath Hoid. unfold download.
  apply only_files_bind; [apply only_files_requests_get | intros r].
  destruct oid as [| | | |o| |]; cbn [get_temporary_path];
    try (apply only_files_same; intros st o' st' E; monad_unfold;
         injection E as _ <-; reflexivity).
  apply only_files_bind_ret.
  destruct (status_code r =? 200).
  { apply only_files_bind; [|intros; apply only_files_stdout_write].
    apply only_files_write_to_file. intros p Hp. injection Hp as <-.
    apply Hoid. reflexivity. }
  destruct (status_code r =? 403); [|apply only_files_raise].
  apply only_files_bind; [apply only_files_get_access_token | intros token].
  apply only_files_bind; [apply only_files_requests_get | intros r'].
  destruct (status_code r' =? 200); [|apply only_files_raise].
  apply only_files_bind; [|intros; apply only_files_stdout_write].
  apply only_files_write_to_file, Hpath.
Qed.

End Files.

Section EventFiles.
Context `{lib : PyLib} (w : world).

(** X17. Handling an event leaves every file as it was, but for the two
    a download event can write: the one at the [path] it carries and the
    one at the temporary path of its [oid]. An init, an upload, a
    terminate or an unknown event changes no file, however it ends. *)
Theorem event_writes_only_its_paths (d : list (string * json)) (st : state) (p : string) :
  ~ download_paths d p ->
  files (snd (process_event w (JDict d) st)) !! p = files st !! p.
Proof.
  intros Hp.
  destruct (eq_str (dict_get d "event") "init") eqn:Hi.
  { apply eq_str_true in Hi. rewrite (process_event_init w d st Hi). reflexivity. }
  destruct (eq_str (dict_get d "event") "upload") eqn:Hu.
  { apply eq_str_true in Hu. rewrite (process_event_upload w d st Hu).
    destruct (upload w _ _ _ _) as [o st'] eqn:E. cbn [snd].
    rewrite (only_files_upload w (download_paths d) _ _ _ _ _ _ E p Hp).
    reflexivity. }
  destruct (eq_str (dict_get d "event") "download") eqn:Hd.
  { apply eq_str_true in Hd. rewrite (process_event_download w d st Hd).
    destruct (download w _ _ _ _) as [o st'] eqn:E. cbn [snd].
    assert (Hof : only_files (download_paths d)
                    (download w (environ w "GCS_BUCKET") (dict_get d "oid")
                       (dict_get d "path"))).
    { apply only_files_download.
      - intros q Hq. split; [exact Hd | left; exact Hq].
      - intros oid Ho. split; [exact Hd|]. right. exists oid. split; [exact Ho | reflexivity]. }
    exact (Hof _ _ _ E p Hp). }
  destruct (eq_str (dict_get d "event") "terminate") eqn:Ht.
  { apply eq_str_true in Ht. rewrite (process_event_terminate w d st Ht). reflexivity. }
  rewrite (process_event_unrecognised w d st)
    by (unfold recognised; rewrite Hi, Hu, Hd, Ht; reflexivity).
  reflexivity.
Qed.

End EventFiles.


(** ** More of the read loop *)

Section LoopEvents.
Context `{lib : PyLib} (w : world).

Lemma bytes_lstrip_nil (l : list byte) : bytes_lstrip l = [] -> blank l.
Proof.
  induction l as [|b l IH]; [constructor|].
  cbn [bytes_lstrip]. destruct (bytes_isspace b) eqn:Hb; [|discriminate].
  intros H. constructor; [exact Hb | exact (IH H)].
Qed.

(** What [bytes_lstrip] leaves is blank only if it is empty. *)
Lemma bytes_lstrip_blank_nil (l : list byte) :
  blank (bytes_lstrip l) -> bytes_lstrip l = [].
Proof.
  induction l as [|b l IH]; [reflexivity|].
  cbn [bytes_lstrip]. destruct (bytes_isspace b) eqn:Hb; [exact IH|].
  intros H. inversion H as [|? ? Hb' _]. congruence.
Qed.

(** X18. The test of the read loop: [strip] leaves nothing of a line
    exactly when the line is empty or holds ASCII whitespace only, so
    every other line is handed to [json.loads]. *)
Theorem nothing_left_iff_blank (line : list byte) :
  bytes_strip line = [] <-> blank line.
Proof.
  split; [|apply bytes_strip_blank].
  unfold bytes_strip. intros H.
  apply (f_equal (@rev byte)) in H. rewrite rev_involutive in H. cbn [rev] in H.
  apply bytes_lstrip_nil in H. unfold blank in H.
  apply Forall_rev in H. rewrite rev_involutive in H.
  apply bytes_lstrip_nil, bytes_lstrip_blank_nil, H.
Qed.


(** X20. A line that decodes to a value that is not an object (a list, a
    number, a string, a boolean, [null]) ends the agent: the value has no
    [get], the [AttributeError] leaves the read loop unhandled, nothing
    is written to either stream and the lines after it are not read. *)
Theorem non_object_payload_ends_loop (line : list byte) (rest : list (list byte))
    (payload : json) (st : state) :
  bytes_strip line <> [] ->
  json_loads (bytes_strip line) = Ret payload ->
  (forall d, payload <> JDict d) ->
  read_loop w (line :: rest) st = (Raise AttributeError, count_line st).
Proof.
  intros Hne Hload Hnd.
  apply read_loop_raise. rewrite (iteration_decoded w line payload st Hne Hload).
  destruct payload as [| | | | | |d]; try reflexivity.
  exfalso. exact (Hnd d eq_refl).
Qed.

End LoopEvents.

(** ** Worked examples *)

Module Examples.
Import Sample.




(** C1. The download event of the example, answered 200 with the body
    [hello] by the public tier: the body is written to the temporary
    path of the object, and the reply carries the path of the event,
    at which no file was written. *)
Theorem public_download_reports_event_path :
  let r := process_event quiet download_event start in
  fst r = Ret tt
  /\ stdout (snd r)
     = [reply_line (complete_download (JStr "ab12cd") (JStr "/tmp/out"))]
  /\ temporary_path "ab12cd" = ".git/lfs/objects/ab/12/ab12cd"
  /\ files (snd r) !! temporary_path "ab12cd" = Some (list_byte_of_string "hello")
  /\ files (snd r) !! "/tmp/out" = None.
Proof.
  cbv zeta. unfold download_event.
  rewrite (process_event_download quiet) by reflexivity.
  change (dict_get _ "oid") with (JStr "ab12cd").
  change (dict_get _ "path") with (JStr "/tmp/out").
  rewrite (download_public_ok quiet _ "ab12cd" _ (JStr "/tmp/out") hello)
    by reflexivity.
  cbn [fst snd stdout files add_stdout put_file add_call at_download add_stderr start
       initial_state app].
  repeat split.
Qed.



(** The environment is not read at startup, and is read again at each
    download. *)
Lemma bucket_read_counterexample :
  env_reads (snd (main quiet ∅ [])) = 0%nat
  /\ env_reads (snd (main quiet ∅ [line_of download_event; line_of download_event]))
     = 2%nat.
Proof. vm_compute. split; reflexivity. Qed.

(** The download event of the example, refused by the public tier and
    answered [world] by the authenticated one. *)
Lemma download_private_to_event_path_witness :
  status_code forbidden = 403 /\ status_code world_ = 200 /\ returncode token_ok = 0
  /\ can_write private_bucket "/tmp/out" = true
  /\ exists st',
       process_event private_bucket download_event start = (Ret tt, st')
       /\ stdout st'
          = ["{" +:+ quoted "event" +:+ ": " +:+ quoted "complete" +:+ ", "
             +:+ quoted "oid" +:+ ": " +:+ quoted "ab12cd" +:+ ", "
             +:+ quoted "path" +:+ ": " +:+ quoted "/tmp/out" +:+ "}" +:+ nl]
       /\ files st' !! "/tmp/out" = Some (list_byte_of_string "world")
       /\ new_calls start st'
          = [Getenv "GCS_BUCKET";
             RequestsGet
               "https://storage.googleapis.com/bucket/PIFSC%2FSOD%2Fgit_lfs_test%2Fab12cd" [];
             SubprocessRun ["gcloud"; "auth"; "print-access-token"];
             RequestsGet
               ("https://storage.googleapis.com/storage/v1/b/bucket/o/"
                +:+ "PIFSC%2FSOD%2Fgit_lfs_test%2Fab12cd?alt=media")
               [("Authorization", "Bearer ya29.token")]].
Proof.
  repeat (split; [reflexivity|]).
  destruct (download_private_to_event_path private_bucket
              [("event", JStr "download"); ("oid", JStr "ab12cd"); ("path", JStr "/tmp/out")]
              "ab12cd" "/tmp/out" forbidden world_ token_ok start)
    as (st' & H & Ho & Hf & _ & Hc); try reflexivity.
  exists st'. repeat split; assumption.
Defined.

(** The same event where the path of the event cannot be opened for
    writing: the authenticated GET is answered 200, the open raises, no
    reply is written and no file holds the body. *)
Lemma unwritable_path_counterexample :
  let r := process_event private_read_only download_event start in
  status_code forbidden = 403 /\ status_code world_ = 200 /\ returncode token_ok = 0
  /\ can_write private_read_only "/tmp/out" = false
  /\ fst r = Raise OSError
  /\ stdout (snd r) = []
  /\ files (snd r) !! "/tmp/out" = None
  /\ existsb authenticated_get (new_calls start (snd r)) = true.
Proof. vm_compute. repeat split. Qed.

(** An upload answered 200 with the body [OK]: no reply is written. *)
Lemma upload_plain_answer_counterexample :
  let r := process_event plain_store upload_event with_file in
  status_code plain_ok = 200
  /\ fst r = Raise (JSONDecodeError decode_error)
  /\ stdout (snd r) = [].
Proof. vm_compute. repeat split. Qed.

(** The upload of a file of ten bytes, answered 200 with [{}]. *)
Lemma upload_reports_local_size_witness :
  status_code stored = 200 /\ returncode token_ok = 0
  /\ files with_file !! "/tmp/f" = Some (list_byte_of_string "0123456789")
  /\ exists st',
       process_event quiet upload_event with_file = (Ret tt, st')
       /\ stdout st'
          = ["{" +:+ quoted "event" +:+ ": " +:+ quoted "complete" +:+ ", "
             +:+ quoted "oid" +:+ ": " +:+ quoted "x" +:+ ", "
             +:+ quoted "size" +:+ ": 10}" +:+ nl]
       /\ new_calls with_file st'
          = [Getenv "GCS_BUCKET";
             SubprocessRun ["gcloud"; "auth"; "print-access-token"];
             RequestsPost
               ("https://storage.googleapis.com/upload/storage/v1/b/bucket/"
                +:+ "o?uploadType=media&name=PIFSC%2FSOD%2Fgit_lfs_test%2Fx")
               [("Content-Type", "application/octet-stream");
                ("Authorization", "Bearer ya29.token")]
               (list_byte_of_string "0123456789")].
Proof.
  repeat (split; [reflexivity|]).
  destruct (upload_reports_local_size quiet
              [("event", JStr "upload"); ("oid", JStr "x"); ("path", JStr "/tmp/f")]
              "/tmp/f" token_ok (list_byte_of_string "0123456789") stored (JDict [])
              with_file)
    as (st' & H & Ho & _ & _ & Hc); try reflexivity.
  exists st'. repeat split; assumption.
Defined.

(** The public tier answers 403 and the credential tool fails: no
    authenticated GET is made. *)
Lemma forbidden_without_token_counterexample :
  let r := download logged_out (Some "bucket") (JStr "ab12cd") (JStr "/tmp/out") start in
  http_get logged_out [] (public_url (Some "bucket") (JStr "ab12cd")) [] = Ret forbidden
  /\ status_code forbidden = 403
  /\ existsb authenticated_get (new_calls start (snd r)) = false
  /\ fst r = Raise (RuntimeError "Error fetching access token: not logged in").
Proof. vm_compute. repeat split. Qed.

(** The public tier answers 403, the token is fetched and the
    authenticated tier answers 500: the authenticated GET is made, and
    the download raises the error of the second answer. *)
Lemma download_fallback_witness :
  let r := download private_down (Some "bucket") (JStr "ab12cd") (JStr "/tmp/out") start in
  http_get private_down (calls start)
    "https://storage.googleapis.com/bucket/PIFSC%2FSOD%2Fgit_lfs_test%2Fab12cd" []
  = Ret forbidden
  /\ status_code forbidden = 403 /\ returncode token_ok = 0 /\ status_code refused <> 200
  /\ existsb authenticated_get (new_calls start (snd r)) = true
  /\ fst r = Raise (RuntimeError "Error downloading file: 500 boom")
  /\ stdout (snd r) = [].
Proof.
  cbv zeta. split; [reflexivity|]. split; [reflexivity|]. split; [reflexivity|].
  split; [vm_compute; discriminate|].
  destruct (download_fallback private_down (Some "bucket") "ab12cd" (JStr "/tmp/out")
              forbidden start
              (snd (download private_down (Some "bucket") (JStr "ab12cd") (JStr "/tmp/out")
                      start))
              (fst (download private_down (Some "bucket") (JStr "ab12cd") (JStr "/tmp/out")
                      start)))
    as (Hiff & _ & _ & Hfail).
  - reflexivity.
  - vm_compute. reflexivity.
  - split.
    + apply Hiff. split; [reflexivity|]. exists token_ok. split; reflexivity.
    + destruct (Hfail token_ok refused) as [Ho Hs]; try reflexivity.
      * vm_compute. discriminate.
      * split; [exact Ho | exact Hs].
Defined.

(** A line of one newline: what [strip] leaves of it is not JSON, and
    the loop goes on after it. *)
Lemma blank_line_not_json_counterexample :
  bytes_strip [x0a] = []
  /\ json_loads [] = Raise (JSONDecodeError decode_error)
  /\ fst (iteration quiet [x0a] start) = Ret Continue
  /\ stdout (snd (main quiet ∅ [[x0a]; line_of init_event])) = [reply_line init_event].
Proof. vm_compute. repeat split. Qed.

(** The line [junk] ends the loop: the init event after it is not read. *)
Lemma undecodable_line_ends_loop_witness :
  json_loads (bytes_strip (list_byte_of_string "junk")) = Raise (JSONDecodeError decode_error)
  /\ exists st',
       read_loop quiet [list_byte_of_string "junk"; line_of init_event] start
       = (Ret tt, st')
       /\ stdout st' = [] /\ lines_read st' = 1%nat.
Proof.
  split; [reflexivity|].
  destruct (undecodable_line_ends_loop quiet (list_byte_of_string "junk")
              [line_of init_event] (JSONDecodeError decode_error) start)
    as (o & st' & H & Ho & Hl & Hr & _).
  - vm_compute. discriminate.
  - reflexivity.
  - exists st'. subst o. auto.
Defined.

(** The temporary path of the object [ab12cd]. *)
Lemma temporary_path_sharded_witness :
  has_sep (substring 0 4 "ab12cd") = false
  /\ temporary_path "ab12cd" = ".git/lfs/objects/ab/12/ab12cd".
Proof.
  split; [reflexivity|].
  apply (temporary_path_sharded "ab12cd"); [simpl; lia | reflexivity].
Defined.

(** The body [hello] written over a file of ten bytes. *)
Lemma write_to_file_replaces_witness :
  can_write quiet "/tmp/f" = true
  /\ files with_file !! "/tmp/f" = Some (list_byte_of_string "0123456789")
  /\ _write_to_file quiet hello (JStr "/tmp/f") with_file
     = (Ret tt, put_file "/tmp/f" (list_byte_of_string "hello") with_file).
Proof.
  split; [reflexivity|]. split; [reflexivity|].
  destruct (write_to_file_replaces quiet hello "/tmp/f" with_file) as (_ & H & _).
  - reflexivity.
  - exact H.
Defined.

(** The download of the example, answered by the public tier, makes two
    calls. *)
Lemma download_event_calls_witness :
  new_calls start (snd (process_event quiet download_event start))
  = [Getenv "GCS_BUCKET"; public_get (Some "bucket") (JStr "ab12cd")].
Proof.
  destruct (download_event_calls quiet
              [("event", JStr "download"); ("oid", JStr "ab12cd"); ("path", JStr "/tmp/out")]
              start) as [H|[H|(token & H)]].
  - reflexivity.
  - exact H.
  - vm_compute in H. discriminate H.
  - vm_compute in H. discriminate H.
Defined.

(** A download event with no [oid], answered 200 by the public tier. *)
Lemma download_without_oid_witness :
  dict_get [("event", JStr "download"); ("path", JStr "/tmp/out")] "oid" = JNull
  /\ exists st',
       process_event quiet download_no_oid start = (Raise TypeError, st')
       /\ stdout st' = [] /\ files st' = ∅.
Proof.
  split; [reflexivity|].
  destruct (download_without_oid quiet
              [("event", JStr "download"); ("path", JStr "/tmp/out")] hello start)
    as (st' & H & Ho & Hf & _); try reflexivity.
  exists st'. repeat split; assumption.
Defined.

(** The download of the example, answered 200 by the public tier. *)
Lemma download_public_writes_temporary_witness :
  status_code hello = 200
  /\ exists st',
       process_event quiet download_event start = (Ret tt, st')
       /\ stdout st'
          = ["{" +:+ quoted "event" +:+ ": " +:+ quoted "complete" +:+ ", "
             +:+ quoted "oid" +:+ ": " +:+ quoted "ab12cd" +:+ ", "
             +:+ quoted "path" +:+ ": " +:+ quoted "/tmp/out" +:+ "}" +:+ nl]
       /\ files st' !! ".git/lfs/objects/ab/12/ab12cd" = Some (list_byte_of_string "hello")
       /\ files st' !! "/tmp/out" = None.
Proof.
  split; [reflexivity|].
  destruct (download_public_writes_temporary quiet
              [("event", JStr "download"); ("oid", JStr "ab12cd"); ("path", JStr "/tmp/out")]
              "ab12cd" hello start)
    as (st' & H & Ho & Hf & Hother & _); try reflexivity.
  exists st'. split; [exact H|]. split; [exact Ho|]. split; [exact Hf|].
  rewrite Hother; [reflexivity | vm_compute; discriminate].
Defined.

(** The download of the example, refused by the public tier, with a
    credential tool that fails. *)
Lemma download_token_refused_witness :
  status_code forbidden = 403 /\ returncode token_failed <> 0
  /\ exists st',
       process_event logged_out download_event start
       = (Raise (RuntimeError "Error fetching access token: not logged in"), st')
       /\ stdout st' = [] /\ files st' = ∅.
Proof.
  split; [reflexivity|]. split; [vm_compute; discriminate|].
  destruct (download_token_refused logged_out
              [("event", JStr "download"); ("oid", JStr "ab12cd"); ("path", JStr "/tmp/out")]
              "ab12cd" forbidden token_failed start)
    as (st' & H & Ho & Hf & _); try reflexivity.
  - vm_compute. discriminate.
  - exists st'. repeat split; assumption.
Defined.

(** The download of the example returns: a body was stored and the
    reply written. *)
Lemma download_reply_means_stored_witness :
  let st' := snd (download quiet (Some "bucket") (JStr "ab12cd") (JStr "/tmp/out") start) in
  descriptor (JStr "/tmp/out") = false
  /\ (exists (p : string) (r : response),
        status_code r = 200 /\ files st' = <[p := content r]> ∅)
  /\ stdout st'
     = ["{" +:+ quoted "event" +:+ ": " +:+ quoted "complete" +:+ ", "
        +:+ quoted "oid" +:+ ": " +:+ quoted "ab12cd" +:+ ", "
        +:+ quoted "path" +:+ ": " +:+ quoted "/tmp/out" +:+ "}" +:+ nl].
Proof.
  cbv zeta. split; [reflexivity|].
  destruct (download_reply_means_stored quiet (Some "bucket") (JStr "ab12cd")
              (JStr "/tmp/out") start
              (snd (download quiet (Some "bucket") (JStr "ab12cd") (JStr "/tmp/out") start)))
    as (p & r & h & url & hd & _ & S & _ & _ & Hf & Ho).
  - reflexivity.
  - vm_compute. reflexivity.
  - split; [exists p, r; split; assumption | exact Ho].
Defined.

(** The download event with no [path], refused by the public tier and
    answered by the authenticated one. *)
Lemma download_private_without_path_witness :
  dict_get [("event", JStr "download"); ("oid", JStr "ab12cd")] "path" = JNull
  /\ exists st',
       process_event private_bucket download_no_path start = (Raise TypeError, st')
       /\ stdout st' = [] /\ files st' = ∅.
Proof.
  split; [reflexivity|].
  destruct (download_private_without_path private_bucket
              [("event", JStr "download"); ("oid", JStr "ab12cd")]
              "ab12cd" forbidden world_ token_ok start)
    as (st' & H & Ho & Hf & _); try reflexivity.
  exists st'. repeat split; assumption.
Defined.

(** The upload of the example posts the ten bytes of the file. *)
Lemma upload_event_calls_witness :
  descriptor (JStr "/tmp/f") = false
  /\ exists token,
       new_calls with_file (snd (process_event quiet upload_event with_file))
       = [Getenv "GCS_BUCKET"; SubprocessRun ["gcloud"; "auth"; "print-access-token"];
          RequestsPost
            ("https://storage.googleapis.com/upload/storage/v1/b/bucket/"
             +:+ "o?uploadType=media&name=PIFSC%2FSOD%2Fgit_lfs_test%2Fx")
            [("Content-Type", "application/octet-stream");
             ("Authorization", "Bearer " +:+ token)]
            (list_byte_of_string "0123456789")].
Proof.
  split; [reflexivity|].
  destruct (upload_event_calls quiet
              [("event", JStr "upload"); ("oid", JStr "x"); ("path", JStr "/tmp/f")]
              with_file) as [H|(token & p & data & Hp & Hf & H)].
  - reflexivity.
  - reflexivity.
  - vm_compute in H. discriminate H.
  - exists token. injection Hp as <-. vm_compute in Hf. injection Hf as <-. exact H.
Defined.

(** The upload of the example with a credential tool that fails. *)
Lemma upload_token_refused_witness :
  returncode token_failed <> 0
  /\ exists st',
       process_event logged_out upload_event with_file
       = (Raise (RuntimeError "Error fetching access token: not logged in"), st')
       /\ stdout st' = []
       /\ new_calls with_file st' = [Getenv "GCS_BUCKET"; token_call].
Proof.
  split; [vm_compute; discriminate|].
  destruct (upload_token_refused logged_out
              [("event", JStr "upload"); ("oid", JStr "x"); ("path", JStr "/tmp/f")]
              token_failed with_file)
    as (st' & H & Ho & _ & Hc); try reflexivity.
  - vm_compute. discriminate.
  - exists st'. repeat split; assumption.
Defined.

(** The upload of the example with no file at the path. *)
Lemma upload_missing_file_witness :
  files start !! "/tmp/f" = None
  /\ exists st',
       process_event quiet upload_event start = (Raise OSError, st')
       /\ stdout st' = []
       /\ new_calls start st' = [Getenv "GCS_BUCKET"; token_call].
Proof.
  split; [reflexivity|].
  destruct (upload_missing_file quiet
              [("event", JStr "upload"); ("oid", JStr "x"); ("path", JStr "/tmp/f")]
              "/tmp/f" token_ok start)
    as (st' & H & Ho & _ & Hc); try reflexivity.
  exists st'. repeat split; assumption.
Defined.

(** The upload of the example, answered 500: the init event after it is
    not read. *)
Lemma upload_refused_ends_loop_witness :
  status_code refused <> 200
  /\ exists st',
       read_loop store_down [line_of upload_event; line_of init_event] with_file
       = (Raise (RuntimeError "Error uploading file: 500 boom"), st')
       /\ stdout st' = [] /\ lines_read st' = 1%nat.
Proof.
  split; [vm_compute; discriminate|].
  destruct (upload_refused_ends_loop store_down (line_of upload_event)
              [line_of init_event]
              [("event", JStr "upload"); ("oid", JStr "x"); ("path", JStr "/tmp/f")]
              "/tmp/f" token_ok (list_byte_of_string "0123456789") refused with_file)
    as (st' & H & Ho & _ & Hl & _); try reflexivity.
  - vm_compute. discriminate.
  - vm_compute. discriminate.
  - exists st'. repeat split; assumption.
Defined.

(** The upload of the example, answered 200 with the body [OK]: the init
    event after it is not read. *)
Lemma upload_plain_answer_ends_loop_witness :
  status_code plain_ok = 200 /\ body_json plain_ok = Undecodable decode_error
  /\ exists st',
       read_loop plain_store [line_of upload_event; line_of init_event] with_file
       = (Ret tt, st')
       /\ stdout st' = [] /\ lines_read st' = 1%nat.
Proof.
  split; [reflexivity|]. split; [reflexivity|].
  destruct (upload_plain_answer_ends_loop plain_store (line_of upload_event)
              [line_of init_event]
              [("event", JStr "upload"); ("oid", JStr "x"); ("path", JStr "/tmp/f")]
              "/tmp/f" token_ok (list_byte_of_string "0123456789") plain_ok decode_error
              with_file)
    as (st' & H & Ho & _ & Hl & _); try reflexivity.
  - vm_compute. discriminate.
  - exists st'. repeat split; assumption.
Defined.

(** The download of the example is answered by one reply, [complete]
    with its [oid]. *)
Lemma one_reply_per_event_witness :
  descriptor (JStr "/tmp/out") = false
  /\ exists v,
       payload_get v "event" = Ret (JStr "complete")
       /\ payload_get v "oid" = Ret (JStr "ab12cd")
       /\ stdout (snd (process_event quiet download_event start)) = [json_dumps v +:+ nl].
Proof.
  split; [reflexivity|].
  destruct (one_reply_per_event quiet
              [("event", JStr "download"); ("oid", JStr "ab12cd"); ("path", JStr "/tmp/out")]
              start) as (v & [He Ho] & H).
  - reflexivity.
  - exists v. split; [exact He|]. split; [apply Ho; reflexivity | exact H].
Defined.

(** An init event, a download and an unknown event: two replies for
    three lines. *)
Lemma replies_bounded_by_lines_witness :
  let lines := [line_of init_event; line_of download_event; line_of progress_event] in
  forallb names_no_descriptor lines = true
  /\ (length (stdout (snd (main quiet ∅ lines))) <= lines_read (snd (main quiet ∅ lines)))%nat
  /\ (lines_read (snd (main quiet ∅ lines)) <= 3)%nat.
Proof.
  cbv zeta. split; [reflexivity|].
  apply (replies_bounded_by_lines quiet ∅
           [line_of init_event; line_of download_event; line_of progress_event]).
  reflexivity.
Defined.

(** The integer 1 and [true] given for [path] are descriptors: the
    download that reaches the open of the path leaves the model there. *)
Lemma descriptor_path_example :
  descriptor (JInt 1) = true /\ descriptor (JBool true) = true
  /\ descriptor JNull = false
  /\ fst (download private_bucket (Some "bucket") (JStr "ab12cd") (JInt 1) start)
     = Raise Unmodelled.
Proof. vm_compute. repeat split. Qed.

(** The download of the example leaves the file of the upload example as
    it was. *)
Lemma event_writes_only_its_paths_witness :
  ~ download_paths
      [("event", JStr "download"); ("oid", JStr "ab12cd"); ("path", JStr "/tmp/out")]
      "/tmp/f"
  /\ files (snd (process_event quiet download_event with_file)) !! "/tmp/f"
     = Some (list_byte_of_string "0123456789").
Proof.
  assert (H : ~ download_paths
                [("event", JStr "download"); ("oid", JStr "ab12cd");
                 ("path", JStr "/tmp/out")] "/tmp/f").
  { intros [_ [H|(oid & Ho & H)]].
    - vm_compute in H. discriminate H.
    - injection Ho as <-. vm_compute in H. discriminate H. }
  split; [exact H|].
  rewrite (event_writes_only_its_paths quiet _ with_file "/tmp/f" H). reflexivity.
Defined.


(** The line [[]] decodes to a list: the init event after it is not
    read. *)
Lemma non_object_payload_ends_loop_witness :
  @json_loads lib_values (bytes_strip (list_byte_of_string "[]")) = Ret (JList [])
  /\ @read_loop lib_values quiet [list_byte_of_string "[]"; line_of init_event] start
     = (Raise AttributeError, count_line start).
Proof.
  split; [reflexivity|].
  apply (@non_object_payload_ends_loop lib_values quiet (list_byte_of_string "[]")
           [line_of init_event] (JList []) start).
  - vm_compute. discriminate.
  - reflexivity.
  - intros d. discriminate.
Defined.

End Examples.
